(** * configure_scanner.py: orchestration of the Nessus scanner set-up

    A shallow embedding of [src/configure_scanner.py].  The script talks to
    the outside world all the time (environment variables, sub-processes, an
    interactive [pexpect] child, the file system, the clock), so every
    function of the script becomes a computation in a small state-and-error
    monad: the state is the log of the effects performed so far, an
    exception aborts the computation, and the answers of the outside world
    are read from a [World] that may look at the log. *)

From Stdlib Require Import ZArith Lia Bool List String Ascii.
From Stdlib Require Import DecimalString.
From stdpp Require Import gmap strings.

Local Open Scope string_scope.
Local Open Scope Z_scope.

(** ** Python values *)

(** The few Python values the script manipulates.  [bytes] objects (the
    captured output of a command) are kept as strings of 8-bit characters. *)
Inductive pyval : Type :=
| VNone
| VBool (b : bool)
| VInt (z : Z)
| VStr (s : string)
| VBytes (b : string).

(** Python's truth value of an object. *)
Definition truthy (v : pyval) : bool :=
  match v with
  | VNone => false
  | VBool b => b
  | VInt z => negb (Z.eqb z 0)
  | VStr s => negb (String.eqb s "")
  | VBytes b => negb (String.eqb b "")
  end.

(** [a or b] returns [a] when it is true and [b] otherwise. *)
Definition py_or (a b : pyval) : pyval := if truthy a then a else b.

(** [v is None] *)
Definition is_None (v : pyval) : bool :=
  match v with VNone => true | _ => false end.

(** [v == "literal"] *)
Definition eq_str (v : pyval) (s : string) : bool :=
  match v with VStr s' => String.eqb s' s | _ => false end.

(** ** Exceptions, effects and the outside world *)

Inductive exn : Type :=
| SystemExit (code : Z)
| CalledProcessError (code : Z) (argv : list string)
| NameError (name : string)
| ValueError
| TypeError
| IOError
| UnicodeDecodeError
| PexpectTIMEOUT
| PexpectEOF.

(** What [child.expect] can come back with. *)
Inductive expect_outcome : Type :=
| Matched (index : nat)
| TimedOut
| EndOfFile.

(** An argument of a log line: a value or a caught exception. *)
Inductive logarg : Type :=
| LVal (v : pyval)
| LExn (e : exn).

(** One observable effect.  A log line keeps its format string and the
    arguments given to [format]; [custom_print] puts a time stamp in front,
    which is not recorded. *)
Inductive event : Type :=
| ELog (fmt : string) (args : list logarg)
| ECall (argv : list string) (status : Z)
| ECheckOutput (argv : list string) (status : Z) (output : string)
| ESpawn (command : string)
| EExpect (patterns : list string) (outcome : expect_outcome)
| ESendline (line : pyval)
| EKill (sig : Z)
| EExists (path : string) (found : bool)
| EGetsize (path : string) (size : Z)
| ESleep (seconds : Z).

(** The log of a run, most recent effect first. *)
Definition trace : Type := list event.

(** The interpreter and the machine the script runs on.  The answers of
    commands, of the interactive child and of the file system may depend on
    everything that happened before.  The executables are taken to be
    installed: launching one always yields an exit status. *)
Record World : Type := {
  version_info : Z * Z;                 (* sys.version_info: major, minor *)
  gethostname : string;                 (* socket.gethostname() *)
  int_of_str : string -> option Z;      (* int(s); None: ValueError *)
  str_of_bytes : string -> string;      (* str(b) of a bytes object *)
  decode_utf8 : string -> option (list N); (* b.decode("utf-8"): code points *)
  run_command : trace -> list string -> Z * string; (* exit status, stdout *)
  expect_reply : trace -> list string -> expect_outcome;
  path_exists : trace -> string -> bool;
  path_getsize : trace -> string -> Z
}.

(** ** The monad *)

Inductive result (A : Type) : Type :=
| Ret (a : A)
| Raise (e : exn).
Arguments Ret {A} a.
Arguments Raise {A} e.

Definition M (A : Type) : Type := trace -> result A * trace.

Definition ret {A} (a : A) : M A := fun t => (Ret a, t).

Definition raise {A} (e : exn) : M A := fun t => (Raise e, t).

Definition bind {A B} (m : M A) (k : A -> M B) : M B :=
  fun t =>
    match m t with
    | (Ret a, t') => k a t'
    | (Raise e, t') => (Raise e, t')
    end.

Definition emit (e : event) : M unit := fun t => (Ret tt, e :: t).

Declare Scope py_scope.
Delimit Scope py_scope with py.
Notation "x <- m ;; k" := (bind m (fun x => k))
  (at level 100, m at next level, right associativity) : py_scope.
Notation "m ;; k" := (bind m (fun _ => k))
  (at level 100, right associativity) : py_scope.
Local Open Scope py_scope.

(** [try: m except CalledProcessError as error: handler error] *)
Definition try_except_CalledProcessError {A} (m : M A)
    (handler : exn -> M A) : M A :=
  fun t =>
    match m t with
    | (Raise (CalledProcessError c a), t') => handler (CalledProcessError c a) t'
    | r => r
    end.

(** [while cond(s): s = body(s)], cut after [fuel] iterations ([None]). *)
Fixpoint while {S} (fuel : nat) (cond : S -> bool) (body : S -> M S) (s : S)
  : M (option S) :=
  if cond s then
    match fuel with
    | O => ret None
    | Datatypes.S fuel' => s' <- body s ;; while fuel' cond body s'
    end
  else ret (Some s).

(** The exit status of the process, from how the main program ended:
    0 when it runs to its last line, [n] after [sys.exit(n)], 1 after any
    other uncaught exception.  [Ret None] stands for a run that was cut short
    by the fuel of a loop: it has no exit status. *)
Definition exit_status (r : result (option unit)) : option Z :=
  match r with
  | Ret (Some _) => Some 0
  | Ret None => None
  | Raise (SystemExit n) => Some n
  | Raise _ => Some 1
  end.

(** ** The script *)

Section Script.

Variable w : World.

(** [os.environ] *)
Variable environ : gmap string string.

(** *** Library calls *)

(** [os.getenv(name, default)] *)
Definition getenv (name : string) (default : pyval) : pyval :=
  match environ !! name with
  | Some s => VStr s
  | None => default
  end.

(** [str(v)] *)
Definition py_str (v : pyval) : string :=
  match v with
  | VNone => "None"
  | VBool true => "True"
  | VBool false => "False"
  | VInt z => NilZero.string_of_int (Z.to_int z)
  | VStr s => s
  | VBytes b => str_of_bytes w b
  end.

(** [int(v)] *)
Definition py_int (v : pyval) : M Z :=
  match v with
  | VInt z => ret z
  | VBool b => ret (if b then 1 else 0)
  | VStr s =>
      match int_of_str w s with
      | Some z => ret z
      | None => raise ValueError
      end
  | VBytes b =>
      match int_of_str w b with
      | Some z => ret z
      | None => raise ValueError
      end
  | VNone => raise TypeError
  end.

(** [sys.exit(code)] *)
Definition sys_exit {A} (code : Z) : M A := raise (SystemExit code).

(** The exception of [time.sleep] for a negative length: [ValueError] under
    Python 3, [IOError] before. *)
Definition negative_sleep : exn :=
  if fst (version_info w) <? 3 then IOError else ValueError.

(** [time.sleep(seconds)], for lengths that the interpreter can convert to
    its time type (beyond some 9.2e9 seconds in either direction it raises
    [OverflowError] instead, which is not modelled). *)
Definition time_sleep (seconds : Z) : M unit :=
  if seconds <? 0 then raise negative_sleep else emit (ESleep seconds).

(** [subprocess.call(argv)]: the exit status. *)
Definition subprocess_call (argv : list string) : M Z :=
  fun t =>
    let status := fst (run_command w t argv) in
    (Ret status, ECall argv status :: t).

(** [subprocess.check_output(argv)]: the captured output, or
    [CalledProcessError] when the exit status is not 0. *)
Definition subprocess_check_output (argv : list string) : M string :=
  fun t =>
    let '(status, output) := run_command w t argv in
    (if status =? 0 then Ret output else Raise (CalledProcessError status argv),
     ECheckOutput argv status output :: t).

(** [pexpect.spawn(command)] *)
Definition pexpect_spawn (command : string) : M unit := emit (ESpawn command).

(** [child.expect(patterns)]: the index of the pattern that matched, or an
    exception when the child's output ends or nothing matches in time. *)
Definition child_expect (patterns : list string) : M nat :=
  fun t =>
    let outcome := expect_reply w t patterns in
    (match outcome with
     | Matched i => Ret i
     | TimedOut => Raise PexpectTIMEOUT
     | EndOfFile => Raise PexpectEOF
     end,
     EExpect patterns outcome :: t).

(** [child.sendline(line)] *)
Definition child_sendline (line : pyval) : M unit := emit (ESendline line).

(** [child.kill(sig)] *)
Definition child_kill (sig : Z) : M unit := emit (EKill sig).

(** [os.path.exists(path)] *)
Definition os_path_exists (path : string) : M bool :=
  fun t =>
    let found := path_exists w t path in
    (Ret found, EExists path found :: t).

(** [os.path.getsize(path)] *)
Definition os_path_getsize (path : string) : M Z :=
  fun t =>
    let size := path_getsize w t path in
    (Ret size, EGetsize path size :: t).

(** [needle in haystack] on decoded text. *)
Fixpoint text_prefix (needle haystack : list N) : bool :=
  match needle, haystack with
  | [], _ => true
  | _ :: _, [] => false
  | a :: needle', b :: haystack' => N.eqb a b && text_prefix needle' haystack'
  end.

Fixpoint text_contains (needle haystack : list N) : bool :=
  text_prefix needle haystack ||
  match haystack with
  | [] => false
  | _ :: haystack' => text_contains needle haystack'
  end.

(** The code points of an ASCII literal. *)
Fixpoint text_of_literal (s : string) : list N :=
  match s with
  | EmptyString => []
  | String a s' => N_of_ascii a :: text_of_literal s'
  end.

(** *** Module-level configuration (lines 26-50) *)

Definition GLOBAL_DB_TIMEOUT : pyval := getenv "GLOBAL_DB_TIMEOUT" (VInt 120).
Definition ACTIVATION_CODE : pyval := getenv "ACTIVATION_CODE" VNone.
Definition NAME : pyval := getenv "NAME" (VStr (gethostname w)).
Definition USERNAME : pyval := getenv "USERNAME" VNone.
Definition PASSWORD : pyval := getenv "PASSWORD" VNone.

Definition AUTO_UPDATE : pyval := getenv "AUTO_UPDATE" (VStr "all").
Definition DISABLE_CORE_UPDATES : pyval :=
  getenv "DISABLE_CORE_UPDATES" (VStr "no").

Definition LINKING_KEY : pyval := getenv "LINKING_KEY" VNone.
Definition MANAGER_HOST : pyval := getenv "MANAGER_HOST" (VStr "cloud.tenable.com").
Definition MANAGER_PORT : pyval := getenv "MANAGER_PORT" (VStr "443").
Definition SELF_HOST : pyval := getenv "SELF_HOST" NAME.
Definition SELF_PORT : pyval := getenv "SELF_PORT" (VStr "8834").
Definition RETRY_ON_FAIL : pyval := getenv "RETRY_ON_FAIL" (VBool false).
Definition RETRY_ON_FAIL_SLEEP : pyval := getenv "RETRY_ON_FAIL_SLEEP" (VInt 30).

Definition PROXY : pyval := getenv "PROXY" VNone.
Definition PROXY_PORT : pyval := getenv "PROXY_PORT" VNone.
Definition PROXY_USER : pyval := getenv "PROXY_USER" VNone.
Definition PROXY_PASS : pyval := getenv "PROXY_PASS" VNone.

(** The data names bound at module level.  The other module-level names are
    the imported modules, [__version__] and the functions of the script. *)
Definition module_globals : list (string * pyval) :=
  [ ("GLOBAL_DB_TIMEOUT", GLOBAL_DB_TIMEOUT);
    ("ACTIVATION_CODE", ACTIVATION_CODE);
    ("NAME", NAME);
    ("USERNAME", USERNAME);
    ("PASSWORD", PASSWORD);
    ("AUTO_UPDATE", AUTO_UPDATE);
    ("DISABLE_CORE_UPDATES", DISABLE_CORE_UPDATES);
    ("LINKING_KEY", LINKING_KEY);
    ("MANAGER_HOST", MANAGER_HOST);
    ("MANAGER_PORT", MANAGER_PORT);
    ("SELF_HOST", SELF_HOST);
    ("SELF_PORT", SELF_PORT);
    ("RETRY_ON_FAIL", RETRY_ON_FAIL);
    ("RETRY_ON_FAIL_SLEEP", RETRY_ON_FAIL_SLEEP);
    ("PROXY", PROXY);
    ("PROXY_PORT", PROXY_PORT);
    ("PROXY_USER", PROXY_USER);
    ("PROXY_PASS", PROXY_PASS);
    ("__version__", VStr "1") ].

Fixpoint assoc (name : string) (bindings : list (string * pyval))
  : option pyval :=
  match bindings with
  | [] => None
  | (n, v) :: rest => if String.eqb n name then Some v else assoc name rest
  end.

(** Reading a variable inside a function: its local names first, then the
    module's; a name bound in neither raises [NameError]. *)
Definition load_name (locals : list (string * pyval)) (name : string)
  : M pyval :=
  match assoc name locals with
  | Some v => ret v
  | None =>
      match assoc name module_globals with
      | Some v => ret v
      | None => raise (NameError name)
      end
  end.

(** *** custom_print (lines 292-298) *)

Definition custom_print (fmt : string) (args : list logarg) : M unit :=
  emit (ELog fmt args).

(** *** nessus_config (lines 53-73) *)

Definition nessuscli : string := "/opt/nessus/sbin/nessuscli".

Definition nessus_config (setting : string) (value : pyval) (secure : bool)
  : M pyval :=
  custom_print "Setting {0} to {1}." [LVal (VStr setting); LVal value] ;;
  let cmd := [nessuscli; "fix"; "--set"] in
  let cmd := if secure then (cmd ++ ["--secure"])%list else cmd in
  let cmd := (cmd ++ [setting +:+ "=" +:+ py_str value])%list in
  command_output <- subprocess_call cmd ;;
  if negb (command_output =? 0) then
    custom_print "Failed to set {0}. Error code: {1}"
      [LVal (VStr setting); LVal (VStr (py_str (VInt command_output)))] ;;
    ret (VBool false)
  else
    ret (VBool true).

(** *** activate (lines 76-107) *)

Definition activate (code : pyval) : M pyval :=
  custom_print "Activating with code: {0}" [LVal code] ;;
  subprocess_call ["supervisorctl"; "stop"; "nessusd"] ;;
  nessus_activated <-
    subprocess_call [nessuscli; "fetch"; "--register"; py_str code] ;;
  if negb (nessus_activated =? 0) then
    custom_print "Failed to activate Nessus using code {0}."
      [LVal (VStr (py_str code))] ;;
    ret (VBool false)
  else
    custom_print "Activated scanner successfully." [] ;;
    (if eq_str AUTO_UPDATE "all"
     then custom_print "Auto updates are on." [] else ret tt) ;;
    (if eq_str AUTO_UPDATE "plugins"
     then custom_print "Core updates are off but plugin updates are turned on." []
     else ret tt) ;;
    (if eq_str AUTO_UPDATE "no"
     then custom_print "Updates are turned off." [] else ret tt) ;;
    start <- subprocess_call ["supervisorctl"; "start"; "nessusd"] ;;
    if negb (start =? 0) then
      custom_print "Failed to start Nessus after activation" [] ;;
      ret (VBool false)
    else
      ret (VBool true).

(** *** add_user (lines 110-165) *)

Definition prompt_login : string := "Login:".
Definition prompt_license : string :=
  "Your license does not allow you to create more than one user".
Definition prompt_password : string := "Login password:".
Definition prompt_exists : string := "already exists".
Definition prompt_confirm_password : string := "Login password .*".
Definition prompt_admin : string := "Do you want this user to be .*".
Definition prompt_rules : string := "the user can have an empty rules set".
Definition prompt_ok : string := "Is that ok?".
Definition prompt_added : string := "User added".

(** Lines 137-165: the dialogue from the password prompt on.  When the index
    is neither 0 nor 1 the function ends without a [return]: [None]. *)
Definition add_user_password : M pyval :=
  i <- child_expect [prompt_password; prompt_exists] ;;
  if (i =? 0)%nat then
    custom_print "Setting Password." [] ;;
    child_sendline PASSWORD ;;
    custom_print "Confirming Password.." [] ;;
    child_expect [prompt_confirm_password] ;;
    child_sendline PASSWORD ;;
    custom_print "Adding administrator privileges." [] ;;
    child_expect [prompt_admin] ;;
    child_sendline (VStr "y") ;;
    custom_print "No Rules needed." [] ;;
    child_expect [prompt_rules] ;;
    child_sendline (VStr "") ;;
    custom_print "Confirming user addition." [] ;;
    child_expect [prompt_ok] ;;
    child_sendline (VStr ("y" +:+ String (ascii_of_nat 10) "")) ;;
    child_expect [prompt_added] ;;
    custom_print "Successfully added user: {0}/{1}"
      [LVal USERNAME; LVal PASSWORD] ;;
    ret (VBool true)
  else if (i =? 1)%nat then
    custom_print "User {0} exists on the scanner. Skipping." [LVal USERNAME] ;;
    child_kill 0 ;;
    ret (VBool true)
  else
    ret VNone.

Definition add_user : M pyval :=
  custom_print "Adding user to scanner." [] ;;
  if truthy (py_or ACTIVATION_CODE LINKING_KEY)
     && is_None USERNAME && is_None PASSWORD then
    custom_print "Activation code or linking key provided but no username and password provided; exiting." [] ;;
    ret (VBool false)
  else if truthy (py_or ACTIVATION_CODE LINKING_KEY)
          && negb (is_None USERNAME) && is_None PASSWORD then
    custom_print "Activation code or linking key provided and username was provided, but not a password; exiting." [] ;;
    ret (VBool false)
  else if is_None USERNAME || is_None PASSWORD then
    custom_print "Username and password not provided. Skipping user creation." [] ;;
    ret (VBool true)
  else
    pexpect_spawn (nessuscli +:+ " adduser") ;;
    a <- child_expect [prompt_login; prompt_license] ;;
    if (a =? 0)%nat then
      child_sendline USERNAME ;;
      add_user_password
    else if (a =? 1)%nat then
      custom_print "Note: User {0} failed to create because of licensing constraints. There is already a user created, continuing.."
        [LVal USERNAME] ;;
      ret (VBool true)
    else
      add_user_password.

(** *** cli_configure (lines 168-195) *)

Definition cli_configure : M pyval :=
  nessus_config "ms_name" NAME true ;;
  (if eq_str AUTO_UPDATE "all"
   then nessus_config "auto_update" (VBool true) false ;; ret tt
   else ret tt) ;;
  (if eq_str AUTO_UPDATE "plugins"
   then nessus_config "auto_update_ui" (VStr "no") false ;;
        nessus_config "auto_update" (VBool true) false ;; ret tt
   else ret tt) ;;
  (if eq_str AUTO_UPDATE "no"
   then nessus_config "auto_update" (VBool false) false ;; ret tt
   else ret tt) ;;
  (if truthy LINKING_KEY
   then nessus_config "disable_core_updates" DISABLE_CORE_UPDATES false ;; ret tt
   else ret tt) ;;
  restarted <- subprocess_call ["supervisorctl"; "restart"; "nessusd"] ;;
  (if negb (restarted =? 0)
   then custom_print "Failed to restart nessusd" [] else ret tt) ;;
  ret (VBool true).

(** *** managed_link (lines 198-262) *)

(** The command line of lines 216-220 (and 206-210, 232-236, 242-246), for
    the port written in its last argument. *)
Definition link_argv (port : pyval) : list string :=
  [ nessuscli; "managed"; "link";
    "--key=" +:+ py_str LINKING_KEY;
    "--name=" +:+ py_str NAME;
    "--host=" +:+ py_str MANAGER_HOST;
    "--port=" +:+ py_str port ].

(** The four proxy arguments of lines 211-214 and 237-240. *)
Definition proxy_argv : list string :=
  [ "--proxy-host=" +:+ py_str PROXY;
    "--proxy-port=" +:+ py_str PROXY_PORT;
    "--proxy-username=" +:+ py_str PROXY_USER;
    "--proxy-password=" +:+ py_str PROXY_PASS ].

(** [sys.version_info < (2, 7)] *)
Definition older_than_2_7 : bool :=
  let '(major, minor) := version_info w in
  (major <? 2) || ((major =? 2) && (minor <? 7)).

(** The [try] block, lines 200-246: [inl v] when it executes [return v],
    [inr linked] when it falls through with [linked] bound. *)
Definition managed_link_try (remote_port : pyval) : M (pyval + string) :=
  if older_than_2_7 then
    linked <-
      (if truthy PROXY
       then subprocess_call (link_argv remote_port ++ proxy_argv)%list
       else subprocess_call (link_argv remote_port)) ;;
    if linked =? 0 then
      custom_print "Scanner successfully linked to {0}:{1}"
        [LVal MANAGER_HOST; LVal remote_port] ;;
      ret (inl (VBool true))
    else
      custom_print "Scanner failed to link to controller at {0}:{1}."
        [LVal MANAGER_HOST; LVal remote_port] ;;
      ret (inl (VBool false))
  else
    linked <-
      (if truthy PROXY
       then subprocess_check_output (link_argv remote_port ++ proxy_argv)%list
       else subprocess_check_output (link_argv MANAGER_PORT)) ;;
    ret (inr linked).

Definition managed_link (remote_port : pyval) : M pyval :=
  r <- try_except_CalledProcessError (managed_link_try remote_port)
         (fun error =>
            custom_print "Scanner failed to link to controller at {0}:{1}. Reason: {2}"
              [LVal MANAGER_HOST; LVal remote_port; LExn error] ;;
            ret (inl (VBool false))) ;;
  match r with
  | inl v => ret v
  | inr linked =>
      if truthy (VBytes linked) then
        text <- match decode_utf8 w linked with
                | Some text => ret text
                | None => raise UnicodeDecodeError
                end ;;
        if text_contains (text_of_literal "Failed") text then
          custom_print "Scanner failed to link to controller at {0}:{1}. Reason: {2}"
            [LVal MANAGER_HOST; LVal remote_port; LVal (VBytes linked)] ;;
          ret (VBool false)
        else
          custom_print "Scanner successfully linked to controller {0}:{1}"
            [LVal MANAGER_HOST; LVal remote_port] ;;
          ret (VBytes linked)
      else
        ret (VBool false)
  end.

(** *** configure_managed_scanner (lines 265-289) *)

(** The body of the [while] loop, lines 280-282.  [linked] is the only local
    name of the function. *)
Definition retry_link (linked : pyval) : M pyval :=
  custom_print "Failed to link to controller. Trying again in {0} secs."
    [LVal (VStr (py_str RETRY_ON_FAIL_SLEEP))] ;;
  seconds <- py_int RETRY_ON_FAIL_SLEEP ;;
  time_sleep seconds ;;
  remote_port <- load_name [("linked", linked)] "remote_port" ;;
  managed_link remote_port.

(** [None]: the loop was still running when the fuel ran out. *)
Definition configure_managed_scanner (fuel : nat) : M (option pyval) :=
  custom_print "Linking scanner to configured controller." [] ;;
  subprocess_call [nessuscli; "fix"; "--secure"; "--set"; "managed=managed"] ;;
  linked <- managed_link MANAGER_PORT ;;
  linked <-
    (if negb (truthy linked) then
       if truthy RETRY_ON_FAIL then
         while fuel (fun linked => negb (truthy linked)) retry_link linked
       else
         custom_print "Managed scanner failed to link to controller." [] ;;
         ret (Some linked)
     else ret (Some linked)) ;;
  match linked with
  | None => ret None
  | Some linked =>
      if truthy linked then ret (Some (VBool true)) else ret (Some (VBool false))
  end.

(** *** wait_for_global_db (lines 301-309) *)

Definition global_db : string := "/opt/nessus/var/nessus/global.db".

(** The [for] loop over [range(0, timeout)] with [n] iterations left:
    [true] when it is left by [return True], [false] when it runs out. *)
Fixpoint poll_global_db (n : nat) : M bool :=
  match n with
  | O => ret false
  | S n' =>
      found <- os_path_exists global_db ;;
      ready <- (if found
                then size <- os_path_getsize global_db ;; ret (0 <? size)
                else ret false) ;;
      if ready then ret true
      else time_sleep 1 ;; poll_global_db n'
  end.

Definition wait_for_global_db : M pyval :=
  timeout <- py_int GLOBAL_DB_TIMEOUT ;;
  found <- poll_global_db (Z.to_nat timeout) ;;
  if found then ret (VBool true)
  else
    custom_print "Nessus does not seem to have created global.db after %d seconds. Exiting."
      [LVal (VInt timeout)] ;;
    ret (VBool false).

(** *** The main program (lines 312-355) *)

(** [Some tt]: the program ran to its last line; [None]: the retry loop was
    cut short by the fuel. *)
Definition main (fuel : nat) : M (option unit) :=
  custom_print "Waiting for Nessus to create global.db." [] ;;
  gdb_created <- wait_for_global_db ;;
  (if negb (truthy gdb_created) then sys_exit 3 else ret tt) ;;
  custom_print "Starting to configure Nessus." [] ;;
  user_added <- add_user ;;
  (if negb (truthy user_added) then
     custom_print "Failed to add user to scanner." [] ;; sys_exit 3
   else ret tt) ;;
  cli_configured <- cli_configure ;;
  (if negb (truthy cli_configured) then
     custom_print "Failed to configure scanner using nessuscli." [] ;;
     sys_exit 3
   else ret tt) ;;
  (if negb (truthy ACTIVATION_CODE) && negb (truthy LINKING_KEY) then
     custom_print "Activation code or Linking key was not provided. Will use the welcome wizard." [] ;;
     sys_exit 0
   else ret tt) ;;
  (if truthy ACTIVATION_CODE then
     custom_print "Attempting to configure Nessus with provided activation code." [] ;;
     activated <- activate ACTIVATION_CODE ;;
     (if negb (truthy activated) then
        custom_print "Failed to activate using code: {0}"
          [LVal (VStr (py_str ACTIVATION_CODE))]
      else ret tt) ;;
     sys_exit 0
   else ret tt) ;;
  if truthy LINKING_KEY then
    custom_print "Attempting to configure as managed scanner" [] ;;
    configured <- configure_managed_scanner fuel ;;
    match configured with
    | None => ret None
    | Some configured =>
        if truthy configured then
          custom_print "Successfully configured scanner as Managed." [] ;;
          sys_exit 0
        else
          custom_print "Failed to configure scanner as Managed." [] ;;
          sys_exit 3
    end
  else ret (Some tt).

End Script.

Arguments sys_exit {A} code.

(** ** Reading a log *)

(** The command lines launched, most recent first. *)
Fixpoint commands_run (t : trace) : list (list string) :=
  match t with
  | [] => []
  | ECall argv _ :: t' => argv :: commands_run t'
  | ECheckOutput argv _ _ :: t' => argv :: commands_run t'
  | _ :: t' => commands_run t'
  end.

(** The lengths of the sleeps, most recent first. *)
Fixpoint sleeps (t : trace) : list Z :=
  match t with
  | [] => []
  | ESleep seconds :: t' => seconds :: sleeps t'
  | _ :: t' => sleeps t'
  end.

(** The number of interactive processes spawned. *)
Fixpoint spawns (t : trace) : nat :=
  match t with
  | [] => O
  | ESpawn _ :: t' => S (spawns t')
  | _ :: t' => spawns t'
  end.

(** The number of times the readiness marker was looked for. *)
Fixpoint polls (t : trace) : nat :=
  match t with
  | [] => O
  | EExists _ _ :: t' => S (polls t')
  | _ :: t' => polls t'
  end.

(** The seconds slept in a log. *)
Definition time_slept (t : trace) : Z := fold_right Z.add 0 (sleeps t).

(** The rounds of a readiness wait that finds nothing, read from its effects
    in the order in which they happened (oldest first).  A round is one look
    for [global.db] that fails (the file is missing, or it is there and its
    size is not positive), followed at once by one sleep of one second.
    [Some n]: the effects are exactly [n] such rounds, one after the other;
    [None]: they are anything else (two looks in a row, a sleep of another
    length, a sleep before the look, any other effect). *)
Fixpoint fruitless_rounds (events : trace) : option nat :=
  match events with
  | [] => Some O
  | EExists path false :: ESleep seconds :: later =>
      if String.eqb path "/opt/nessus/var/nessus/global.db" && (seconds =? 1)
      then option_map S (fruitless_rounds later)
      else None
  | EExists path true :: EGetsize path' size :: ESleep seconds :: later =>
      if String.eqb path "/opt/nessus/var/nessus/global.db"
         && String.eqb path' "/opt/nessus/var/nessus/global.db"
         && (size <=? 0) && (seconds =? 1)
      then option_map S (fruitless_rounds later)
      else None
  | _ => None
  end.

(** Is [argv] a [nessuscli managed link] command? *)
Definition is_link_command (argv : list string) : bool :=
  match argv with
  | _ :: "managed" :: "link" :: _ => true
  | _ => false
  end.

(** The number of link attempts recorded in a log. *)
Fixpoint link_attempts (t : trace) : nat :=
  match t with
  | [] => O
  | ECheckOutput argv _ _ :: t' =>
      ((if is_link_command argv then 1 else 0) + link_attempts t')%nat
  | ECall argv _ :: t' =>
      ((if is_link_command argv then 1 else 0) + link_attempts t')%nat
  | _ :: t' => link_attempts t'
  end.

(** ** Named pieces of the script and of its log *)

Section Vocabulary.

Variable w : World.
Variable environ : gmap string string.

(** The command line picked by the Python 2.7+ branch of [managed_link]. *)
Definition check_output_argv (remote_port : pyval) : list string :=
  if truthy (PROXY environ)
  then (link_argv w environ remote_port ++ proxy_argv w environ)%list
  else link_argv w environ (MANAGER_PORT environ).

(** The command of line 273. *)
Definition fix_managed : list string :=
  [nessuscli; "fix"; "--secure"; "--set"; "managed=managed"].

(** The log after the first two statements of [configure_managed_scanner]. *)
Definition configure_prologue (t : trace) : trace :=
  let t0 := ELog "Linking scanner to configured controller." [] :: t in
  ECall fix_managed (fst (run_command w t0 fix_managed)) :: t0.

(** The log line of line 280. *)
Definition retry_line : event :=
  ELog "Failed to link to controller. Trying again in {0} secs."
    [LVal (VStr (py_str w (RETRY_ON_FAIL_SLEEP environ)))].

(** What one round of the loop of [wait_for_global_db] finds: the file
    exists and, looked at right after that, has a positive size. *)
Definition marker_ready (t : trace) : bool :=
  path_exists w t global_db
  && (0 <? path_getsize w (EExists global_db true :: t) global_db).

(** The log line of line 308. *)
Definition timeout_line (timeout : Z) : event :=
  ELog "Nessus does not seem to have created global.db after %d seconds. Exiting."
    [LVal (VInt timeout)].

(** The log lines of lines 314, 319 and 112. *)
Definition waiting_line : event :=
  ELog "Waiting for Nessus to create global.db." [].
Definition starting_line : event :=
  ELog "Starting to configure Nessus." [].
Definition adding_line : event := ELog "Adding user to scanner." [].

End Vocabulary.

(** ** The discipline of the dialogue *)

(** Equality of values of the same type. *)
Definition pyval_eqb (a b : pyval) : bool :=
  match a, b with
  | VNone, VNone => true
  | VBool x, VBool y => Bool.eqb x y
  | VInt x, VInt y => Z.eqb x y
  | VStr x, VStr y => String.eqb x y
  | VBytes x, VBytes y => String.eqb x y
  | _, _ => false
  end.

(** Which line answers which prompt in the dialogue of lines 128-157. *)
Definition responses (environ : gmap string string) : list (string * pyval) :=
  [ (prompt_login, USERNAME environ);
    (prompt_password, PASSWORD environ);
    (prompt_confirm_password, PASSWORD environ);
    (prompt_admin, VStr "y");
    (prompt_rules, VStr "");
    (prompt_ok, VStr ("y" +:+ String (ascii_of_nat 10) "")) ].

(** The last effect of a log, log lines apart. *)
Fixpoint last_effect (t : trace) : option event :=
  match t with
  | [] => None
  | ELog _ _ :: t' => last_effect t'
  | e :: _ => Some e
  end.

(** [line] is sent right after an [expect] that matched one of its patterns,
    and [line] is the answer to that pattern. *)
Definition answers (table : list (string * pyval)) (line : pyval)
    (before : trace) : bool :=
  match last_effect before with
  | Some (EExpect patterns (Matched i)) =>
      match nth_error patterns i with
      | Some prompt =>
          existsb
            (fun entry => String.eqb (fst entry) prompt
                          && pyval_eqb (snd entry) line)
            table
      | None => false
      end
  | _ => false
  end.

(** Every line sent in the log answers a prompt observed just before. *)
Fixpoint synchronised (table : list (string * pyval)) (t : trace) : bool :=
  match t with
  | [] => true
  | ESendline line :: t' => answers table line t' && synchronised table t'
  | _ :: t' => synchronised table t'
  end.

(** What [pexpect] promises about [expect]: the index it returns is the
    index of one of the patterns it was given. *)
Definition expect_in_range (w : World) : Prop :=
  forall t patterns i,
    expect_reply w t patterns = Matched i -> (i < length patterns)%nat.

(** ** Computations that cannot fail *)

(** [always m P]: from every log, [m] returns a value satisfying [P]. *)
Definition always {A} (m : M A) (P : A -> Prop) : Prop :=
  forall t, exists a t', m t = (Ret a, t') /\ P a.

(** [v] is [True] or [False]. *)
Definition is_bool (v : pyval) : Prop := exists b, v = VBool b.

(** ** Concrete interpreters, machines and configurations *)

Local Open Scope N_scope.

Definition continuation (b : N) : bool := (128 <=? b) && (b <=? 191).

(** Strict UTF-8 decoding, as Python 3 does it: no overlong forms, no
    surrogates, nothing above U+10FFFF. *)
Fixpoint utf8_strict (s : string) : option (list N) :=
  match s with
  | EmptyString => Some []
  | String a0 s1 =>
      let b0 := N_of_ascii a0 in
      if b0 <? 128 then
        option_map (cons b0) (utf8_strict s1)
      else if (194 <=? b0) && (b0 <=? 223) then
        match s1 with
        | String a1 s2 =>
            let b1 := N_of_ascii a1 in
            if continuation b1 then
              option_map (cons ((b0 - 192) * 64 + (b1 - 128))) (utf8_strict s2)
            else None
        | EmptyString => None
        end
      else if (224 <=? b0) && (b0 <=? 239) then
        match s1 with
        | String a1 (String a2 s3) =>
            let b1 := N_of_ascii a1 in
            let b2 := N_of_ascii a2 in
            if continuation b1 && continuation b2
               && negb ((b0 =? 224) && (b1 <? 160))
               && negb ((b0 =? 237) && (160 <=? b1)) then
              option_map
                (cons ((b0 - 224) * 4096 + (b1 - 128) * 64 + (b2 - 128)))
                (utf8_strict s3)
            else None
        | _ => None
        end
      else if (240 <=? b0) && (b0 <=? 244) then
        match s1 with
        | String a1 (String a2 (String a3 s4)) =>
            let b1 := N_of_ascii a1 in
            let b2 := N_of_ascii a2 in
            let b3 := N_of_ascii a3 in
            if continuation b1 && continuation b2 && continuation b3
               && negb ((b0 =? 240) && (b1 <? 144))
               && negb ((b0 =? 244) && (144 <=? b1)) then
              option_map
                (cons ((b0 - 240) * 262144 + (b1 - 128) * 4096
                       + (b2 - 128) * 64 + (b3 - 128)))
                (utf8_strict s4)
            else None
        | _ => None
        end
      else None
  end.

Local Close Scope N_scope.

(** [int(s)] on a decimal literal with an optional minus sign.  (Python also
    accepts a plus sign, blanks around the digits and underscores between
    them; the runs below use none of these.) *)
Definition int_of_decimal (s : string) : option Z :=
  option_map Z.of_int (NilZero.int_of_string s).

(** [str(b)] of a [bytes] object made of plain printable characters. *)
Definition bytes_repr (b : string) : string := "b'" +:+ b +:+ "'".

(** A Python 3 interpreter on a host called [scanner] where every command
    succeeds silently, the interactive child always prints what the first
    pattern waits for, and [global.db] is there from the start. *)
Definition quiet_world : World :=
  {| version_info := (3, 8);
     gethostname := "scanner";
     int_of_str := int_of_decimal;
     str_of_bytes := bytes_repr;
     decode_utf8 := utf8_strict;
     run_command := fun _ _ => (0, "");
     expect_reply :=
       fun _ patterns =>
         match patterns with [] => TimedOut | _ :: _ => Matched 0 end;
     path_exists := fun _ _ => true;
     path_getsize := fun _ _ => 4096 |}.

(** [w] with other answers to commands. *)
Definition with_commands (w : World)
    (commands : trace -> list string -> Z * string) : World :=
  {| version_info := version_info w;
     gethostname := gethostname w;
     int_of_str := int_of_str w;
     str_of_bytes := str_of_bytes w;
     decode_utf8 := decode_utf8 w;
     run_command := commands;
     expect_reply := expect_reply w;
     path_exists := path_exists w;
     path_getsize := path_getsize w |}.

(** A controller that refuses the first [failures] link attempts and accepts
    the next one; every other command succeeds silently. *)
Definition flaky_controller (failures : nat) : World :=
  with_commands quiet_world
    (fun t argv =>
       if is_link_command argv then
         if (link_attempts t <? failures)%nat
         then (1, "Failed to link")
         else (0, "Successfully linked")
       else (0, "")).

(** A machine on which [global.db] never shows up. *)
Definition no_database : World :=
  {| version_info := version_info quiet_world;
     gethostname := gethostname quiet_world;
     int_of_str := int_of_str quiet_world;
     str_of_bytes := str_of_bytes quiet_world;
     decode_utf8 := decode_utf8 quiet_world;
     run_command := run_command quiet_world;
     expect_reply := expect_reply quiet_world;
     path_exists := fun _ _ => false;
     path_getsize := fun _ _ => 0 |}.

(** A machine on which the registration of the activation code is refused. *)
Definition registration_refused : World :=
  with_commands quiet_world
    (fun _ argv =>
       match argv with
       | [_; "fetch"; "--register"; _] => (1, "")
       | _ => (0, "")
       end).

(** A machine on which the service does not start again after the
    registration. *)
Definition start_refused : World :=
  with_commands quiet_world
    (fun _ argv =>
       match argv with
       | ["supervisorctl"; "start"; _] => (1, "")
       | _ => (0, "")
       end).

(** A machine on which every [nessuscli fix] command fails with status 1. *)
Definition settings_refused : World :=
  with_commands quiet_world
    (fun _ argv =>
       match argv with
       | _ :: "fix" :: _ => (1, "")
       | _ => (0, "")
       end).

(** A machine on which the interactive child never prints a prompt. *)
Definition silent_child : World :=
  {| version_info := version_info quiet_world;
     gethostname := gethostname quiet_world;
     int_of_str := int_of_str quiet_world;
     str_of_bytes := str_of_bytes quiet_world;
     decode_utf8 := decode_utf8 quiet_world;
     run_command := run_command quiet_world;
     expect_reply := fun _ _ => TimedOut;
     path_exists := path_exists quiet_world;
     path_getsize := path_getsize quiet_world |}.

(** A configuration asking for a managed scanner with retries one second
    apart. *)
Definition retry_environ : gmap string string :=
  list_to_map
    [("LINKING_KEY", "key"); ("RETRY_ON_FAIL", "1");
     ("RETRY_ON_FAIL_SLEEP", "1")].

(** A configuration with an activation code and the credentials of the
    account to create. *)
Definition activation_environ : gmap string string :=
  list_to_map
    [("ACTIVATION_CODE", "AAAA-BBBB"); ("USERNAME", "admin");
     ("PASSWORD", "secret")].

(** The credentials of the account to create, and nothing else. *)
Definition credentials : gmap string string :=
  list_to_map [("USERNAME", "admin"); ("PASSWORD", "secret")].

(** ** Footprints

    What a computation adds to the log, and of which kinds. *)

(** The lines sent to the interactive child, most recent first. *)
Fixpoint lines_sent (t : trace) : list pyval :=
  match t with
  | [] => []
  | ESendline line :: t' => line :: lines_sent t'
  | _ :: t' => lines_sent t'
  end.

Definition is_log (e : event) : bool :=
  match e with ELog _ _ => true | _ => false end.

(** The effects on the interactive child. *)
Definition is_dialogue (e : event) : bool :=
  match e with
  | ESpawn _ | EExpect _ _ | ESendline _ | EKill _ => true
  | _ => false
  end.

(** The looks at the file system. *)
Definition is_file (e : event) : bool :=
  match e with EExists _ _ | EGetsize _ _ => true | _ => false end.

Definition is_sleep (e : event) : bool :=
  match e with ESleep _ => true | _ => false end.

(** A command launched, either way. *)
Definition is_command (e : event) : bool :=
  match e with ECall _ _ | ECheckOutput _ _ _ => true | _ => false end.

(** A command launched with [subprocess.call] that is not a link command. *)
Definition is_plain_call (e : event) : bool :=
  match e with ECall argv _ => negb (is_link_command argv) | _ => false end.

(** A link command, launched either way. *)
Definition is_link (e : event) : bool :=
  match e with
  | ECall argv _ | ECheckOutput argv _ _ => is_link_command argv
  | _ => false
  end.

(** [emits_only allowed m]: whatever the log [m] starts from, it leaves that
    log in place and puts in front of it only effects that [allowed]
    accepts. *)
Definition emits_only {A} (allowed : event -> bool) (m : M A) : Prop :=
  forall t, exists added,
    snd (m t) = (added ++ t)%list /\ forallb allowed added = true.

(** [launches commands m]: from every log, [m] returns, and the command
    lines it launched are [commands] (most recent first), whatever their
    outcomes. *)
Definition launches {A} (commands : list (list string)) (m : M A) : Prop :=
  forall t, exists a t',
    m t = (Ret a, t') /\ commands_run t' = (commands ++ commands_run t)%list.

Section Expected.

Variable w : World.
Variable environ : gmap string string.

(** The command line of [nessus_config(setting, value, secure)]. *)
Definition set_argv (setting : string) (value : pyval) (secure : bool)
  : list string :=
  ([nessuscli; "fix"; "--set"]
   ++ (if secure then ["--secure"] else [])
   ++ [setting +:+ "=" +:+ py_str w value])%list.

(** The command lines of [cli_configure], most recent first. *)
Definition cli_configure_commands : list (list string) :=
  (["supervisorctl"; "restart"; "nessusd"]
   :: (if truthy (LINKING_KEY environ)
       then [set_argv "disable_core_updates" (DISABLE_CORE_UPDATES environ)
               false]
       else [])
   ++ (if eq_str (AUTO_UPDATE environ) "no"
       then [set_argv "auto_update" (VBool false) false] else [])
   ++ (if eq_str (AUTO_UPDATE environ) "plugins"
       then [set_argv "auto_update" (VBool true) false;
             set_argv "auto_update_ui" (VStr "no") false]
       else [])
   ++ (if eq_str (AUTO_UPDATE environ) "all"
       then [set_argv "auto_update" (VBool true) false] else [])
   ++ [set_argv "ms_name" (NAME w environ) true])%list.

(** The three commands of [activate]. *)
Definition stop_argv : list string := ["supervisorctl"; "stop"; "nessusd"].
Definition start_argv : list string := ["supervisorctl"; "start"; "nessusd"].
Definition register_argv (code : pyval) : list string :=
  [nessuscli; "fetch"; "--register"; py_str w code].

(** The exit status of the registration command in [activate code], run
    from the log [t]. *)
Definition registration_status (code : pyval) (t : trace) : Z :=
  let t0 := ELog "Activating with code: {0}" [LVal code] :: t in
  let t1 := ECall stop_argv (fst (run_command w t0 stop_argv)) :: t0 in
  fst (run_command w t1 (register_argv code)).

(** The command line of [managed_link(remote_port)] on the branches that use
    the caller's port: every branch but the one of Python 2.7 or later
    without a proxy. *)
Definition link_argv_with_port (remote_port : pyval) : list string :=
  if truthy (PROXY environ)
  then (link_argv w environ remote_port ++ proxy_argv w environ)%list
  else link_argv w environ remote_port.

(** The command line that [managed_link(remote_port)] launches. *)
Definition managed_link_argv (remote_port : pyval) : list string :=
  if older_than_2_7 w then link_argv_with_port remote_port
  else check_output_argv w environ remote_port.

(** The marker is missing at the first [k] looks recorded in a log and
    ready at every later one. *)
Definition ready_from_look (k : nat) : Prop :=
  forall t, marker_ready w t = (k <=? polls t)%nat.

End Expected.

(** A child that always prints what the first pattern waits for, except
    that it answers one list of patterns with its second pattern. *)
Definition child_answering_second (patterns : list string) : World :=
  {| version_info := version_info quiet_world;
     gethostname := gethostname quiet_world;
     int_of_str := int_of_str quiet_world;
     str_of_bytes := str_of_bytes quiet_world;
     decode_utf8 := decode_utf8 quiet_world;
     run_command := run_command quiet_world;
     expect_reply :=
       fun _ asked =>
         if bool_decide (asked = patterns) then Matched 1
         else match asked with [] => TimedOut | _ :: _ => Matched 0 end;
     path_exists := path_exists quiet_world;
     path_getsize := path_getsize quiet_world |}.

(** A machine on which [global.db] is there with its contents from the
    [k]-th look on (counting from 0). *)
Definition database_after (k : nat) : World :=
  {| version_info := version_info quiet_world;
     gethostname := gethostname quiet_world;
     int_of_str := int_of_str quiet_world;
     str_of_bytes := str_of_bytes quiet_world;
     decode_utf8 := decode_utf8 quiet_world;
     run_command := run_command quiet_world;
     expect_reply := expect_reply quiet_world;
     path_exists := fun t _ => (k <=? polls t)%nat;
     path_getsize := fun _ _ => 4096 |}.

(** A controller whose link command exits with status 0 and prints
    [output]. *)
Definition controller_printing (output : string) : World :=
  with_commands quiet_world (fun _ _ => (0, output)).

(** Is [e] the exception of [sys.exit]? *)
Definition is_exit (e : exn) : bool :=
  match e with SystemExit _ => true | _ => false end.

(** [never_exits m]: no run of [m] ends with the exception of [sys.exit]. *)
Definition never_exits {A} (m : M A) : Prop :=
  forall t e t', m t = (Raise e, t') -> is_exit e = false.

(** * Proofs *)

(** ** Running computations step by step *)

Lemma run_bind_ret {A B} (m : M A) (k : A -> M B) t a t' :
  m t = (Ret a, t') -> bind m k t = k a t'.
Proof. intros H. unfold bind. now rewrite H. Qed.

Lemma run_bind_raise {A B} (m : M A) (k : A -> M B) t e t' :
  m t = (Raise e, t') -> bind m k t = (Raise e, t').
Proof. intros H. unfold bind. now rewrite H. Qed.

Lemma run_bind_emit {B} (e : event) (k : unit -> M B) t :
  bind (emit e) k t = k tt (e :: t).
Proof. reflexivity. Qed.

Lemma truthy_getenv_None environ name :
  truthy (getenv environ name VNone) = true <->
  exists s, environ !! name = Some s /\ s <> "".
Proof.
  unfold getenv. destruct (environ !! name) as [s|]; simpl.
  - rewrite negb_true_iff. split.
    + intros H. exists s. split; [reflexivity|].
      intros ->. discriminate.
    + intros (s' & [= <-] & Hne). now apply String.eqb_neq.
  - split; [discriminate|]. intros (s & [=] & _).
Qed.

(** ** The linking procedure *)

Section Linking.

Variable w : World.
Variable environ : gmap string string.

(** [managed_link] under Python 2.7 or later, spelled out. *)
Lemma managed_link_check_output remote_port t :
  older_than_2_7 w = false ->
  managed_link w environ remote_port t =
  let argv := check_output_argv w environ remote_port in
  let status := fst (run_command w t argv) in
  let output := snd (run_command w t argv) in
  let t1 := ECheckOutput argv status output :: t in
  if status =? 0 then
    if truthy (VBytes output) then
      match decode_utf8 w output with
      | None => (Raise UnicodeDecodeError, t1)
      | Some text =>
          if text_contains (text_of_literal "Failed") text then
            (Ret (VBool false),
             ELog "Scanner failed to link to controller at {0}:{1}. Reason: {2}"
               [LVal (MANAGER_HOST environ); LVal remote_port;
                LVal (VBytes output)] :: t1)
          else
            (Ret (VBytes output),
             ELog "Scanner successfully linked to controller {0}:{1}"
               [LVal (MANAGER_HOST environ); LVal remote_port] :: t1)
      end
    else (Ret (VBool false), t1)
  else
    (Ret (VBool false),
     ELog "Scanner failed to link to controller at {0}:{1}. Reason: {2}"
       [LVal (MANAGER_HOST environ); LVal remote_port;
        LExn (CalledProcessError status argv)] :: t1).
Proof.
  intros Hver.
  unfold managed_link, managed_link_try, check_output_argv.
  rewrite Hver.
  unfold bind, try_except_CalledProcessError, subprocess_check_output.
  destruct (truthy (PROXY environ));
    (destruct (run_command w t _) as [status output]; cbn [fst snd];
     destruct (status =? 0); [|reflexivity];
     cbn [ret]; destruct (truthy (VBytes output)); [|reflexivity];
     destruct (decode_utf8 w output) as [text|]; [|reflexivity];
     cbn [ret]; destruct (text_contains _ text); reflexivity).
Qed.

(** [managed_link] under an interpreter older than Python 2.7. *)
Lemma managed_link_call remote_port t :
  older_than_2_7 w = true ->
  managed_link w environ remote_port t =
  let argv :=
    if truthy (PROXY environ)
    then (link_argv w environ remote_port ++ proxy_argv w environ)%list
    else link_argv w environ remote_port in
  let status := fst (run_command w t argv) in
  let t1 := ECall argv status :: t in
  if status =? 0 then
    (Ret (VBool true),
     ELog "Scanner successfully linked to {0}:{1}"
       [LVal (MANAGER_HOST environ); LVal remote_port] :: t1)
  else
    (Ret (VBool false),
     ELog "Scanner failed to link to controller at {0}:{1}."
       [LVal (MANAGER_HOST environ); LVal remote_port] :: t1).
Proof.
  intros Hver.
  unfold managed_link, managed_link_try.
  rewrite Hver.
  unfold bind, try_except_CalledProcessError, subprocess_call.
  destruct (truthy (PROXY environ)); cbn [fst snd];
    destruct (fst (run_command w t _) =? 0); reflexivity.
Qed.

Lemma configure_managed_scanner_start fuel t :
  configure_managed_scanner w environ fuel t =
  bind (managed_link w environ (MANAGER_PORT environ))
    (fun linked =>
       bind
         (if negb (truthy linked) then
            if truthy (RETRY_ON_FAIL environ) then
              while fuel (fun linked => negb (truthy linked))
                (retry_link w environ) linked
            else
              bind (custom_print "Managed scanner failed to link to controller." [])
                (fun _ => ret (Some linked))
          else ret (Some linked))
         (fun linked =>
            match linked with
            | None => ret None
            | Some linked =>
                if truthy linked then ret (Some (VBool true))
                else ret (Some (VBool false))
            end))
    (configure_prologue w t).
Proof. reflexivity. Qed.

(** The first attempt succeeds: no retry, success. *)
Lemma configure_managed_scanner_linked fuel t v t1 :
  managed_link w environ (MANAGER_PORT environ) (configure_prologue w t)
    = (Ret v, t1) ->
  truthy v = true ->
  configure_managed_scanner w environ fuel t = (Ret (Some (VBool true)), t1).
Proof.
  intros Hlink Hv. rewrite configure_managed_scanner_start.
  rewrite (run_bind_ret _ _ _ _ _ Hlink). rewrite Hv. cbn.
  now rewrite Hv.
Qed.

(** The first attempt fails and retrying is off: failure after that single
    attempt. *)
Lemma configure_managed_scanner_no_retry fuel t v t1 :
  managed_link w environ (MANAGER_PORT environ) (configure_prologue w t)
    = (Ret v, t1) ->
  truthy v = false ->
  truthy (RETRY_ON_FAIL environ) = false ->
  configure_managed_scanner w environ fuel t =
  (Ret (Some (VBool false)),
   ELog "Managed scanner failed to link to controller." [] :: t1).
Proof.
  intros Hlink Hv Hretry. rewrite configure_managed_scanner_start.
  rewrite (run_bind_ret _ _ _ _ _ Hlink). rewrite Hv, Hretry. cbn.
  now rewrite Hv.
Qed.

(** One turn of the retry loop never reaches its link attempt: the name
    [remote_port] is bound neither in the function nor in the module. *)
Lemma retry_link_run linked t :
  retry_link w environ linked t =
  match py_int w (RETRY_ON_FAIL_SLEEP environ) (retry_line w environ :: t) with
  | (Ret seconds, t') =>
      if seconds <? 0 then (Raise (negative_sleep w), t')
      else (Raise (NameError "remote_port"), ESleep seconds :: t')
  | (Raise e, t') => (Raise e, t')
  end.
Proof.
  unfold retry_link, custom_print. rewrite run_bind_emit.
  unfold bind at 1. fold (retry_line w environ).
  destruct (py_int w _ _) as [[seconds|e] t']; [|reflexivity].
  unfold bind, time_sleep. destruct (seconds <? 0); reflexivity.
Qed.

(** The first attempt fails and retrying is on: the loop body runs once and
    ends the function with an exception, whatever the bound on the loop. *)
Lemma configure_managed_scanner_retry fuel t v t1 :
  managed_link w environ (MANAGER_PORT environ) (configure_prologue w t)
    = (Ret v, t1) ->
  truthy v = false ->
  truthy (RETRY_ON_FAIL environ) = true ->
  configure_managed_scanner w environ (S fuel) t =
  match py_int w (RETRY_ON_FAIL_SLEEP environ) (retry_line w environ :: t1) with
  | (Ret seconds, t') =>
      if seconds <? 0 then (Raise (negative_sleep w), t')
      else (Raise (NameError "remote_port"), ESleep seconds :: t')
  | (Raise e, t') => (Raise e, t')
  end.
Proof.
  intros Hlink Hv Hretry. rewrite configure_managed_scanner_start.
  rewrite (run_bind_ret _ _ _ _ _ Hlink). rewrite Hv, Hretry.
  cbn [negb while]. rewrite Hv. cbn [negb].
  unfold bind at 1. unfold bind at 1. rewrite retry_link_run.
  destruct (py_int w _ _) as [[seconds|e] t']; [|reflexivity].
  destruct (seconds <? 0); reflexivity.
Qed.

Lemma py_int_trace v t :
  snd (py_int w v t) = t.
Proof.
  destruct v as [|[]| |s|s]; try reflexivity;
    cbn; destruct (int_of_str w s); reflexivity.
Qed.

End Linking.

(** ** Claims about the linking procedure *)

(** C1, at its own example: retrying is enabled with a delay of one second
    and the controller refuses the first two attempts and would accept the
    third.  Whatever the bound on the loop, [configure_managed_scanner] does
    not report success after two sleeps: it sleeps once and then ends with
    [NameError] for [remote_port], after a single link attempt. *)
Theorem configure_managed_scanner_retry_crashes :
  forall fuel,
    let run :=
      configure_managed_scanner (flaky_controller 2) retry_environ (S fuel) []
    in
    fst run = Raise (NameError "remote_port") /\
    sleeps (snd run) = [1] /\
    link_attempts (snd run) = 1%nat.
Proof.
  intros fuel run. subst run.
  set (w := flaky_controller 2).
  assert (Hlink :
    managed_link w retry_environ (MANAGER_PORT retry_environ)
      (configure_prologue w []) =
    (Ret (VBool false),
     snd (managed_link w retry_environ (MANAGER_PORT retry_environ)
            (configure_prologue w [])))) by (vm_compute; reflexivity).
  rewrite (configure_managed_scanner_retry w retry_environ fuel [] _ _ Hlink)
    by reflexivity.
  vm_compute. repeat split.
Qed.

(** The whole program at the same example, with the credentials of an
    account: the exception is not caught and the exit status is 1. *)
Lemma main_retry_crashes :
  let environ :=
    <["USERNAME" := "admin"]> (<["PASSWORD" := "secret"]> retry_environ) in
  let run := main (flaky_controller 2) environ 3 [] in
  fst run = Raise (NameError "remote_port") /\
  exit_status (fst run) = Some 1 /\
  sleeps (snd run) = [1] /\
  link_attempts (snd run) = 1%nat.
Proof. vm_compute. repeat split. Qed.

(** C2: under Python 2.7 or later and without a proxy, the link command is
    built from the module-level [MANAGER_PORT], whatever port the caller
    passed to [managed_link]. *)
Theorem managed_link_port_without_proxy w environ remote_port t :
  older_than_2_7 w = false ->
  truthy (PROXY environ) = false ->
  commands_run (snd (managed_link w environ remote_port t)) =
  link_argv w environ (MANAGER_PORT environ) :: commands_run t.
Proof.
  intros Hver Hproxy. rewrite managed_link_check_output by assumption.
  unfold check_output_argv. rewrite Hproxy. cbv zeta.
  destruct (fst (run_command w t _) =? 0); [|reflexivity].
  destruct (truthy (VBytes _)); [|reflexivity].
  destruct (decode_utf8 w _) as [text|]; [|reflexivity].
  destruct (text_contains _ text); reflexivity.
Qed.

(** A caller asking for port 8834 gets a command for port 443. *)
Lemma managed_link_port_without_proxy_witness :
  commands_run
    (snd (managed_link quiet_world {["LINKING_KEY" := "key"]} (VStr "8834") []))
  = [ [ "/opt/nessus/sbin/nessuscli"; "managed"; "link"; "--key=key";
        "--name=scanner"; "--host=cloud.tenable.com"; "--port=443" ] ].
Proof.
  rewrite (managed_link_port_without_proxy quiet_world
             {["LINKING_KEY" := "key"]} (VStr "8834") []) by reflexivity.
  vm_compute. reflexivity.
Defined.

(** C6: under Python 2.7 or later, whenever [managed_link] reports success
    the value it returns is the captured output of the command, a [bytes]
    object, and not the boolean [True]. *)
Theorem managed_link_success_value w environ remote_port t r t' :
  older_than_2_7 w = false ->
  managed_link w environ remote_port t = (Ret r, t') ->
  truthy r = true ->
  r = VBytes (snd (run_command w t (check_output_argv w environ remote_port)))
  /\ r <> VBool true.
Proof.
  intros Hver Hrun Hr. rewrite managed_link_check_output in Hrun by assumption.
  cbv zeta in Hrun.
  destruct (fst (run_command w t _) =? 0).
  - destruct (truthy (VBytes _)).
    + destruct (decode_utf8 w _) as [text|]; [|discriminate].
      destruct (text_contains _ text); injection Hrun as <- <-.
      * discriminate.
      * split; [reflexivity | discriminate].
    + injection Hrun as <- <-. discriminate.
  - injection Hrun as <- <-. discriminate.
Qed.

Lemma managed_link_success_value_witness :
  VBytes "Successfully linked" =
    VBytes (snd (run_command (flaky_controller 0) []
                   (check_output_argv (flaky_controller 0)
                      {["LINKING_KEY" := "key"]} (VStr "443"))))
  /\ VBytes "Successfully linked" <> VBool true.
Proof.
  apply (managed_link_success_value (flaky_controller 0)
           {["LINKING_KEY" := "key"]} (VStr "443") []
           (VBytes "Successfully linked")
           (snd (managed_link (flaky_controller 0)
                   {["LINKING_KEY" := "key"]} (VStr "443") [])));
    reflexivity.
Defined.

(** C10: the retry flag is on exactly when [RETRY_ON_FAIL] is set to a
    non-empty string.  After a failed first attempt, a flag that is off ends
    [configure_managed_scanner] with failure at once, and a flag that is on
    (be it the string [false] or [no]) sends it into the retry loop. *)
Theorem retry_enabled_iff_nonempty w environ fuel t v t1 :
  managed_link w environ (MANAGER_PORT environ) (configure_prologue w t)
    = (Ret v, t1) ->
  truthy v = false ->
  (truthy (RETRY_ON_FAIL environ) = true <->
   exists s, environ !! "RETRY_ON_FAIL" = Some s /\ s <> "") /\
  (truthy (RETRY_ON_FAIL environ) = false ->
   configure_managed_scanner w environ fuel t =
   (Ret (Some (VBool false)),
    ELog "Managed scanner failed to link to controller." [] :: t1)) /\
  (truthy (RETRY_ON_FAIL environ) = true ->
   exists r pre,
     configure_managed_scanner w environ (S fuel) t =
     (r, (pre ++ retry_line w environ :: t1)%list)).
Proof.
  intros Hlink Hv. split; [|split].
  - unfold RETRY_ON_FAIL, getenv.
    destruct (environ !! "RETRY_ON_FAIL") as [s|]; simpl.
    + rewrite negb_true_iff. split.
      * intros H. exists s. split; [reflexivity|]. intros ->. discriminate.
      * intros (s' & [= <-] & Hne). now apply String.eqb_neq.
    + split; [discriminate|]. intros (s & [=] & _).
  - intros Hoff. now apply configure_managed_scanner_no_retry with (v := v).
  - intros Hon.
    rewrite (configure_managed_scanner_retry w environ fuel t v t1 Hlink Hv Hon).
    pose proof (py_int_trace w (RETRY_ON_FAIL_SLEEP environ)
                  (retry_line w environ :: t1)) as Htr.
    destruct (py_int w _ _) as [[seconds|e] t2]; cbn [snd] in Htr; subst t2.
    + destruct (seconds <? 0).
      * exists (Raise (negative_sleep w)), []. reflexivity.
      * exists (Raise (NameError "remote_port")), [ESleep seconds]. reflexivity.
    + exists (Raise e), []. reflexivity.
Qed.

(** With [RETRY_ON_FAIL=false] a refused first attempt is retried. *)
Lemma retry_enabled_iff_nonempty_witness :
  truthy (RETRY_ON_FAIL {["RETRY_ON_FAIL" := "false"]}) = true /\
  exists r pre,
    configure_managed_scanner (flaky_controller 1)
      {["RETRY_ON_FAIL" := "false"]} 1 [] =
    (r, (pre ++ retry_line (flaky_controller 1) {["RETRY_ON_FAIL" := "false"]}
             :: snd (managed_link (flaky_controller 1)
                       {["RETRY_ON_FAIL" := "false"]} (VStr "443")
                       (configure_prologue (flaky_controller 1) [])))%list).
Proof.
  split; [reflexivity|].
  refine (proj2 (proj2
    (retry_enabled_iff_nonempty (flaky_controller 1)
       {["RETRY_ON_FAIL" := "false"]} 0 [] (VBool false) _ _ _)) _);
    reflexivity.
Defined.

Lemma always_ret {A} (a : A) (P : A -> Prop) : P a -> always (ret a) P.
Proof. intros Ha t. now exists a, t. Qed.

Lemma always_bind {A B} (m : M A) (k : A -> M B) (Q : A -> Prop)
    (P : B -> Prop) :
  always m Q -> (forall a, Q a -> always (k a) P) -> always (bind m k) P.
Proof.
  intros Hm Hk t. destruct (Hm t) as (a & t1 & Hrun & Ha).
  destruct (Hk a Ha t1) as (b & t2 & Hrun' & Hb).
  exists b, t2. split; [|exact Hb].
  now rewrite (run_bind_ret _ _ _ _ _ Hrun).
Qed.

Lemma always_weaken {A} (m : M A) (Q P : A -> Prop) :
  always m Q -> (forall a, Q a -> P a) -> always m P.
Proof.
  intros Hm HQP t. destruct (Hm t) as (a & t' & Hrun & Ha).
  exists a, t'. auto.
Qed.

Lemma always_emit e : always (emit e) (fun _ => True).
Proof. intros t. now exists tt, (e :: t). Qed.

Lemma always_custom_print fmt args :
  always (custom_print fmt args) (fun _ => True).
Proof. apply always_emit. Qed.

Lemma always_subprocess_call w argv :
  always (subprocess_call w argv) (fun _ => True).
Proof. intros t. now eexists _, _. Qed.

Lemma always_if {A} (b : bool) (m1 m2 : M A) (P : A -> Prop) :
  always m1 P -> always m2 P -> always (if b then m1 else m2) P.
Proof. now destruct b. Qed.

Create HintDb always discriminated.
#[local] Hint Resolve always_ret always_emit always_custom_print
  always_subprocess_call always_if : always.

Lemma is_bool_VBool b : is_bool (VBool b).
Proof. now exists b. Qed.
#[local] Hint Resolve is_bool_VBool : always.

Ltac always_step :=
  first
    [ apply always_ret
    | apply always_if
    | eapply always_bind;
        [ first [ apply always_custom_print | apply always_subprocess_call ]
        | intros ? _ ] ].

Lemma nessus_config_always w setting value secure :
  always (nessus_config w setting value secure) is_bool.
Proof.
  unfold nessus_config. repeat always_step; auto with always.
Qed.

Lemma cli_configure_always w environ :
  always (cli_configure w environ) (eq (VBool true)).
Proof.
  unfold cli_configure.
  repeat first
    [ always_step
    | eapply always_bind; [ apply nessus_config_always | intros ? _ ]
    | eapply always_bind with (Q := fun _ => True); [ | intros ? _ ] ];
    auto with always.
Qed.

Lemma activate_always w environ code :
  always (activate w environ code) is_bool.
Proof.
  unfold activate.
  repeat first
    [ always_step
    | eapply always_bind with (Q := fun _ => True); [ | intros ? _ ] ];
    auto with always.
Qed.

(** ** The readiness wait *)

Section Readiness.

Variable w : World.
Variable environ : gmap string string.

Lemma poll_global_db_spawns n :
  forall t, spawns (snd (poll_global_db w n t)) = spawns t.
Proof.
  induction n as [|n IH]; intros t; [reflexivity|].
  cbn [poll_global_db]. unfold bind, os_path_exists, os_path_getsize, ret.
  destruct (path_exists w t global_db).
  - destruct (0 <? path_getsize w _ global_db); [reflexivity|].
    cbn. now rewrite IH.
  - cbn. now rewrite IH.
Qed.

Lemma wait_for_global_db_spawns t :
  spawns (snd (wait_for_global_db w environ t)) = spawns t.
Proof.
  unfold wait_for_global_db, bind.
  pose proof (py_int_trace w (GLOBAL_DB_TIMEOUT environ) t) as Htr.
  destruct (py_int w _ t) as [[timeout|e] t0]; cbn [snd] in Htr; subst t0;
    [|reflexivity].
  pose proof (poll_global_db_spawns (Z.to_nat timeout) t) as Hsp.
  destruct (poll_global_db w _ t) as [[[]|e] t1]; cbn [snd] in Hsp;
    cbn; assumption.
Qed.

Lemma repeat_app_cons {A} (a : A) n l :
  (repeat a n ++ a :: l)%list = a :: (repeat a n ++ l)%list.
Proof.
  induction n as [|n IH]; [reflexivity|]. cbn. now rewrite IH.
Qed.

Lemma poll_global_db_never_ready n :
  (forall t, marker_ready w t = false) ->
  forall t, exists t',
    poll_global_db w n t = (Ret false, t') /\
    polls t' = (polls t + n)%nat /\
    sleeps t' = (repeat 1 n ++ sleeps t)%list.
Proof.
  intros Hnever. induction n as [|n IH]; intros t.
  - exists t. cbn. now rewrite Nat.add_0_r.
  - cbn [poll_global_db]. unfold bind, os_path_exists, os_path_getsize, ret.
    specialize (Hnever t). unfold marker_ready in Hnever.
    destruct (path_exists w t global_db); cbn in Hnever.
    + rewrite Hnever. cbn.
      destruct (IH (ESleep 1 :: EGetsize global_db
                      (path_getsize w (EExists global_db true :: t) global_db)
                    :: EExists global_db true :: t))
        as (t' & Hrun & Hpolls & Hsleeps).
      exists t'. rewrite Hrun, Hpolls, Hsleeps. cbn.
      repeat split; [lia|].
      apply repeat_app_cons.
    + cbn.
      destruct (IH (ESleep 1 :: EExists global_db false :: t))
        as (t' & Hrun & Hpolls & Hsleeps).
      exists t'. rewrite Hrun, Hpolls, Hsleeps. cbn.
      repeat split; [lia|].
      apply repeat_app_cons.
Qed.

Lemma time_slept_repeat n l :
  fold_right Z.add 0 (repeat 1 n ++ l)%list = Z.of_nat n + fold_right Z.add 0 l.
Proof.
  induction n as [|n IH]; [reflexivity|].
  cbn [repeat app fold_right]. rewrite IH. lia.
Qed.

Lemma wait_for_global_db_never_ready timeout :
  py_int w (GLOBAL_DB_TIMEOUT environ) = ret timeout ->
  (forall t, marker_ready w t = false) ->
  forall t, exists t',
    wait_for_global_db w environ t
      = (Ret (VBool false), timeout_line timeout :: t') /\
    polls t' = (polls t + Z.to_nat timeout)%nat /\
    sleeps t' = (repeat 1 (Z.to_nat timeout) ++ sleeps t)%list /\
    time_slept t' = time_slept t + Z.max 0 timeout.
Proof.
  intros Hint Hnever t.
  destruct (poll_global_db_never_ready (Z.to_nat timeout) Hnever t)
    as (t' & Hrun & Hpolls & Hsleeps).
  exists t'. unfold wait_for_global_db. rewrite Hint.
  unfold bind at 1. cbn [ret].
  rewrite (run_bind_ret _ _ _ _ _ Hrun).
  repeat split; try assumption.
  unfold time_slept. rewrite Hsleeps, time_slept_repeat. lia.
Qed.

End Readiness.

(** ** The main program, branch by branch *)

(** One step of symbolic execution: the monad unfolded, the functions of
    the script left folded. *)
Ltac run := cbv [bind ret emit sys_exit raise custom_print negb andb].

Section Orchestration.

Variable w : World.
Variable environ : gmap string string.
Variable fuel : nat.

(** The readiness wait reports failure: exit status 3. *)
Lemma main_not_ready g t1 :
  wait_for_global_db w environ [waiting_line] = (Ret g, t1) ->
  truthy g = false ->
  main w environ fuel [] = (Raise (SystemExit 3), t1).
Proof.
  intros Hwait Hg. unfold main, waiting_line in *. run.
  rewrite Hwait, Hg. reflexivity.
Qed.

(** [add_user] reports failure: exit status 3. *)
Lemma main_user_not_added g t1 u t2 :
  wait_for_global_db w environ [waiting_line] = (Ret g, t1) ->
  truthy g = true ->
  add_user w environ (starting_line :: t1) = (Ret u, t2) ->
  truthy u = false ->
  main w environ fuel [] =
  (Raise (SystemExit 3), ELog "Failed to add user to scanner." [] :: t2).
Proof.
  intros Hwait Hg Hadd Hu. unfold main, waiting_line, starting_line in *. run.
  rewrite Hwait, Hg. run. rewrite Hadd, Hu. reflexivity.
Qed.

(** The program after the general settings, from line 332 on. *)
Lemma main_after_settings g t1 u t2 :
  wait_for_global_db w environ [waiting_line] = (Ret g, t1) ->
  truthy g = true ->
  add_user w environ (starting_line :: t1) = (Ret u, t2) ->
  truthy u = true ->
  exists t3,
    cli_configure w environ t2 = (Ret (VBool true), t3) /\
    main w environ fuel [] =
    (if negb (truthy (ACTIVATION_CODE environ))
        && negb (truthy (LINKING_KEY environ)) then
       (Raise (SystemExit 0),
        ELog "Activation code or Linking key was not provided. Will use the welcome wizard." []
          :: t3)
     else if truthy (ACTIVATION_CODE environ) then
       match activate w environ (ACTIVATION_CODE environ)
               (ELog "Attempting to configure Nessus with provided activation code." []
                  :: t3) with
       | (Ret activated, t4) =>
           (Raise (SystemExit 0),
            if truthy activated then t4
            else ELog "Failed to activate using code: {0}"
                   [LVal (VStr (py_str w (ACTIVATION_CODE environ)))] :: t4)
       | (Raise e, t4) => (Raise e, t4)
       end
     else
       match configure_managed_scanner w environ fuel
               (ELog "Attempting to configure as managed scanner" [] :: t3) with
       | (Ret None, t4) => (Ret None, t4)
       | (Ret (Some configured), t4) =>
           if truthy configured then
             (Raise (SystemExit 0),
              ELog "Successfully configured scanner as Managed." [] :: t4)
           else
             (Raise (SystemExit 3),
              ELog "Failed to configure scanner as Managed." [] :: t4)
       | (Raise e, t4) => (Raise e, t4)
       end).
Proof.
  intros Hwait Hg Hadd Hu.
  destruct (cli_configure_always w environ t2) as (c & t3 & Hcli & <-).
  exists t3. split; [exact Hcli|].
  unfold main, waiting_line, starting_line in *. run.
  rewrite Hwait, Hg. run. rewrite Hadd, Hu. run. rewrite Hcli.
  change (truthy (VBool true)) with true. run.
  destruct (truthy (ACTIVATION_CODE environ)) eqn:Hcode;
    destruct (truthy (LINKING_KEY environ)) eqn:Hkey; run.
  - destruct (activate w environ _ _) as [[activated|e] t4]; [|reflexivity].
    destruct (truthy activated); reflexivity.
  - destruct (activate w environ _ _) as [[activated|e] t4]; [|reflexivity].
    destruct (truthy activated); reflexivity.
  - destruct (configure_managed_scanner w environ fuel _)
      as [[[configured|]|e] t4]; try reflexivity.
    destruct (truthy configured); reflexivity.
  - reflexivity.
Qed.

(** An exception inside [add_user] is not caught. *)
Lemma main_user_raises g t1 e t2 :
  wait_for_global_db w environ [waiting_line] = (Ret g, t1) ->
  truthy g = true ->
  add_user w environ (starting_line :: t1) = (Raise e, t2) ->
  main w environ fuel [] = (Raise e, t2).
Proof.
  intros Hwait Hg Hadd. unfold main, waiting_line, starting_line in *. run.
  rewrite Hwait, Hg. run. rewrite Hadd. reflexivity.
Qed.

End Orchestration.

(** ** Claims about the readiness wait and the exit status *)

Lemma poll_global_db_fruitless w n :
  (forall t, marker_ready w t = false) ->
  forall t, exists rounds,
    poll_global_db w n t = (Ret false, (rounds ++ t)%list) /\
    fruitless_rounds (rev rounds) = Some n.
Proof.
  intros Hnever. induction n as [|n IH]; intros t.
  - now exists [].
  - cbn [poll_global_db]. unfold bind, os_path_exists, os_path_getsize, ret.
    pose proof (Hnever t) as Hlook. unfold marker_ready in Hlook.
    destruct (path_exists w t global_db); cbn [andb] in Hlook.
    + rewrite Hlook. cbn [time_sleep Z.ltb Z.compare emit].
      set (size := path_getsize w (EExists global_db true :: t) global_db)
        in *.
      destruct (IH (ESleep 1 :: EGetsize global_db size
                      :: EExists global_db true :: t))
        as (rounds & Hrun & Hrounds).
      exists (rounds ++ [ESleep 1; EGetsize global_db size;
                         EExists global_db true])%list.
      split.
      * rewrite Hrun. now rewrite <- app_assoc.
      * rewrite rev_app_distr. cbn [rev app fruitless_rounds global_db].
        rewrite String.eqb_refl. cbn [andb].
        assert (Hsize : (size <=? 0) = true).
        { apply Z.leb_le. apply Z.ltb_ge in Hlook. exact Hlook. }
        rewrite Hsize. cbn. now rewrite Hrounds.
    + cbn [time_sleep Z.ltb Z.compare emit].
      destruct (IH (ESleep 1 :: EExists global_db false :: t))
        as (rounds & Hrun & Hrounds).
      exists (rounds ++ [ESleep 1; EExists global_db false])%list.
      split.
      * rewrite Hrun. now rewrite <- app_assoc.
      * rewrite rev_app_distr. cbn [rev app fruitless_rounds global_db].
        rewrite String.eqb_refl. cbn. now rewrite Hrounds.
Qed.

(** C7: when the marker is never there, the effects of [wait_for_global_db]
    are as many rounds as the configured timeout has seconds (none for a
    negative one), each round being one look for the marker followed at once
    by one sleep of one second; after them it logs the timeout and returns
    [False].  So there are that many looks, the seconds slept add up to the
    timeout, and the program, having done nothing else, leaves with
    [sys.exit(3)]. *)
Theorem wait_for_global_db_times_out w environ fuel timeout :
  py_int w (GLOBAL_DB_TIMEOUT environ) = ret timeout ->
  (forall t, marker_ready w t = false) ->
  (forall t, exists rounds,
     wait_for_global_db w environ t
       = (Ret (VBool false), timeout_line timeout :: (rounds ++ t)%list) /\
     fruitless_rounds (rev rounds) = Some (Z.to_nat timeout) /\
     polls (rounds ++ t)%list = (polls t + Z.to_nat timeout)%nat /\
     sleeps (rounds ++ t)%list
       = (repeat 1 (Z.to_nat timeout) ++ sleeps t)%list /\
     time_slept (rounds ++ t)%list = time_slept t + Z.max 0 timeout) /\
  (exists rounds,
     main w environ fuel [] =
     (Raise (SystemExit 3),
      timeout_line timeout :: (rounds ++ [waiting_line])%list) /\
     fruitless_rounds (rev rounds) = Some (Z.to_nat timeout)) /\
  exit_status (fst (main w environ fuel [])) = Some 3.
Proof.
  intros Hint Hnever.
  assert (Hwait : forall t, exists rounds,
     wait_for_global_db w environ t
       = (Ret (VBool false), timeout_line timeout :: (rounds ++ t)%list) /\
     fruitless_rounds (rev rounds) = Some (Z.to_nat timeout) /\
     polls (rounds ++ t)%list = (polls t + Z.to_nat timeout)%nat /\
     sleeps (rounds ++ t)%list
       = (repeat 1 (Z.to_nat timeout) ++ sleeps t)%list /\
     time_slept (rounds ++ t)%list = time_slept t + Z.max 0 timeout).
  { intros t.
    destruct (poll_global_db_fruitless w (Z.to_nat timeout) Hnever t)
      as (rounds & Hpoll & Hrounds).
    destruct (wait_for_global_db_never_ready w environ timeout Hint Hnever t)
      as (t' & Hrun & Hpolls & Hsleeps & Hslept).
    assert (Hrun' :
      wait_for_global_db w environ t
        = (Ret (VBool false), timeout_line timeout :: (rounds ++ t)%list)).
    { unfold wait_for_global_db. rewrite Hint.
      unfold bind at 1. cbn [ret].
      now rewrite (run_bind_ret _ _ _ _ _ Hpoll). }
    rewrite Hrun' in Hrun. injection Hrun as <-.
    exists rounds. auto. }
  split; [exact Hwait|].
  destruct (Hwait [waiting_line]) as (rounds & Hrun & Hrounds & _).
  rewrite (main_not_ready w environ fuel _ _ Hrun eq_refl).
  split; [|reflexivity].
  exists rounds. now split.
Qed.

Lemma wait_for_global_db_times_out_witness :
  (forall t, exists rounds,
     wait_for_global_db no_database {["GLOBAL_DB_TIMEOUT" := "3"]} t
       = (Ret (VBool false), timeout_line 3 :: (rounds ++ t)%list) /\
     fruitless_rounds (rev rounds) = Some 3%nat /\
     polls (rounds ++ t)%list = (polls t + 3)%nat /\
     sleeps (rounds ++ t)%list = (1 :: 1 :: 1 :: sleeps t)%list /\
     time_slept (rounds ++ t)%list = time_slept t + 3) /\
  (exists rounds,
     main no_database {["GLOBAL_DB_TIMEOUT" := "3"]} 0 [] =
     (Raise (SystemExit 3), timeout_line 3 :: (rounds ++ [waiting_line])%list) /\
     fruitless_rounds (rev rounds) = Some 3%nat) /\
  exit_status (fst (main no_database {["GLOBAL_DB_TIMEOUT" := "3"]} 0 []))
    = Some 3.
Proof.
  apply (wait_for_global_db_times_out no_database
           {["GLOBAL_DB_TIMEOUT" := "3"]} 0 3).
  - reflexivity.
  - intros t. reflexivity.
Defined.

(** The run behind the witness, effect by effect: look, sleep, look, sleep,
    look, sleep, the timeout line, and the exit. *)
Lemma no_database_run :
  main no_database {["GLOBAL_DB_TIMEOUT" := "3"]} 0 [] =
  (Raise (SystemExit 3),
   rev [ waiting_line;
         EExists global_db false; ESleep 1;
         EExists global_db false; ESleep 1;
         EExists global_db false; ESleep 1;
         timeout_line 3 ]).
Proof. vm_compute. reflexivity. Qed.

(** The reading of rounds does tell a paced wait from other orders of the
    same looks and sleeps: three looks in a row before three sleeps, or a
    sleep before its look, are no rounds. *)
Example fruitless_rounds_batch :
  fruitless_rounds
    [ EExists global_db false; EExists global_db false;
      EExists global_db false; ESleep 1; ESleep 1; ESleep 1 ] = None /\
  fruitless_rounds [ ESleep 1; EExists global_db false ] = None /\
  fruitless_rounds [ EExists global_db false; ESleep 3 ] = None /\
  fruitless_rounds
    [ EExists global_db false; ESleep 1; EExists global_db false; ESleep 1 ]
    = Some 2%nat.
Proof. vm_compute. repeat split. Qed.

(** C9: once the activation step is reached the program ends with
    [sys.exit(0)], whatever [activate] returns; when [activate] returns
    [False] (the registration or the start of the service gave a non-zero
    status), the failure is logged and the exit status is still 0. *)
Theorem activation_failure_exits_0 w environ fuel g t1 u t2 :
  truthy (ACTIVATION_CODE environ) = true ->
  wait_for_global_db w environ [waiting_line] = (Ret g, t1) ->
  truthy g = true ->
  add_user w environ (starting_line :: t1) = (Ret u, t2) ->
  truthy u = true ->
  exit_status (fst (main w environ fuel [])) = Some 0 /\
  exists t3,
    cli_configure w environ t2 = (Ret (VBool true), t3) /\
    forall t4,
      activate w environ (ACTIVATION_CODE environ)
        (ELog "Attempting to configure Nessus with provided activation code." []
           :: t3) = (Ret (VBool false), t4) ->
      main w environ fuel [] =
      (Raise (SystemExit 0),
       ELog "Failed to activate using code: {0}"
         [LVal (VStr (py_str w (ACTIVATION_CODE environ)))] :: t4).
Proof.
  intros Hcode Hwait Hg Hadd Hu.
  destruct (main_after_settings w environ fuel g t1 u t2 Hwait Hg Hadd Hu)
    as (t3 & Hcli & Hmain).
  rewrite Hcode in Hmain. cbn [negb andb] in Hmain.
  destruct (activate_always w environ (ACTIVATION_CODE environ)
              (ELog "Attempting to configure Nessus with provided activation code." []
                 :: t3)) as (a & t4 & Hact & (b & ->)).
  rewrite Hact in Hmain. split.
  - now rewrite Hmain.
  - exists t3. split; [exact Hcli|].
    intros t4' Hact'. rewrite Hact in Hact'. injection Hact' as -> <-.
    exact Hmain.
Qed.

Lemma activation_failure_exits_0_witness :
  exit_status (fst (main registration_refused activation_environ 0 []))
    = Some 0 /\
  exists t3,
    cli_configure registration_refused activation_environ
      (snd (add_user registration_refused activation_environ
              (starting_line
                 :: snd (wait_for_global_db registration_refused
                           activation_environ [waiting_line]))))
      = (Ret (VBool true), t3) /\
    forall t4,
      activate registration_refused activation_environ
        (ACTIVATION_CODE activation_environ)
        (ELog "Attempting to configure Nessus with provided activation code." []
           :: t3) = (Ret (VBool false), t4) ->
      main registration_refused activation_environ 0 [] =
      (Raise (SystemExit 0),
       ELog "Failed to activate using code: {0}"
         [LVal (VStr (py_str registration_refused
                        (ACTIVATION_CODE activation_environ)))] :: t4).
Proof.
  apply (activation_failure_exits_0 registration_refused activation_environ 0
           (VBool true)
           (snd (wait_for_global_db registration_refused activation_environ
                   [waiting_line]))
           (VBool true)
           (snd (add_user registration_refused activation_environ
                   (starting_line
                      :: snd (wait_for_global_db registration_refused
                                activation_environ [waiting_line])))));
    vm_compute; reflexivity.
Defined.

(** The run behind the witness above: the registration command is refused
    with status 1, [activate] returns [False] and the program exits with
    status 0. *)
Lemma activation_refused_run :
  let run := main registration_refused activation_environ 0 [] in
  In (ECall [nessuscli; "fetch"; "--register"; "AAAA-BBBB"] 1) (snd run) /\
  In (ELog "Failed to activate using code: {0}" [LVal (VStr "AAAA-BBBB")])
     (snd run) /\
  fst run = Raise (SystemExit 0).
Proof. vm_compute. intuition. Qed.

(** The same when the registration is accepted and the start of the service
    fails. *)
Lemma activation_start_refused_run :
  let run := main start_refused activation_environ 0 [] in
  In (ECall ["supervisorctl"; "start"; "nessusd"] 1) (snd run) /\
  In (ELog "Failed to activate using code: {0}" [LVal (VStr "AAAA-BBBB")])
     (snd run) /\
  fst run = Raise (SystemExit 0).
Proof. vm_compute. intuition. Qed.

(** C5 does not hold as stated.  When every settings command fails, with
    nothing else configured, the program still exits with status 0; and when
    the dialogue of [add_user] gets no prompt, the exception is not caught
    and the exit status is 1. *)
Lemma failures_without_exit_3 :
  (let run := main settings_refused ∅ 0 [] in
   In (ECall [nessuscli; "fix"; "--set"; "--secure"; "ms_name=scanner"] 1)
      (snd run) /\
   In (ELog "Failed to set {0}. Error code: {1}"
         [LVal (VStr "ms_name"); LVal (VStr "1")]) (snd run) /\
   exit_status (fst run) = Some 0 /\
   exit_status (fst run) <> Some 3) /\
  (let run := main silent_child credentials 0 [] in
   fst run = Raise PexpectTIMEOUT /\
   exit_status (fst run) = Some 1 /\
   exit_status (fst run) <> Some 3).
Proof. vm_compute. intuition discriminate. Qed.

(** C5, amended: the exit status is 3 when the readiness wait reports
    failure, when [add_user] reports failure, and when
    [configure_managed_scanner] reports failure; it is 0 when neither an
    activation code nor a linking key is given, after the activation step,
    and when [configure_managed_scanner] reports success.  The settings
    commands of [cli_configure] have no say: [cli_configure] returns [True]
    whatever their exit statuses. *)
Theorem main_exit_status w environ fuel g t1 :
  wait_for_global_db w environ [waiting_line] = (Ret g, t1) ->
  let status := exit_status (fst (main w environ fuel [])) in
  (truthy g = false -> status = Some 3) /\
  (truthy g = true ->
   forall u t2,
     add_user w environ (starting_line :: t1) = (Ret u, t2) ->
     (truthy u = false -> status = Some 3) /\
     (truthy u = true ->
      exists t3,
        cli_configure w environ t2 = (Ret (VBool true), t3) /\
        (truthy (ACTIVATION_CODE environ) = false ->
         truthy (LINKING_KEY environ) = false -> status = Some 0) /\
        (truthy (ACTIVATION_CODE environ) = true -> status = Some 0) /\
        (truthy (ACTIVATION_CODE environ) = false ->
         truthy (LINKING_KEY environ) = true ->
         forall configured t4,
           configure_managed_scanner w environ fuel
             (ELog "Attempting to configure as managed scanner" [] :: t3)
             = (Ret (Some configured), t4) ->
           status = Some (if truthy configured then 0 else 3)))).
Proof.
  intros Hwait status. subst status. split.
  - intros Hg. now rewrite (main_not_ready w environ fuel g t1 Hwait Hg).
  - intros Hg u t2 Hadd. split.
    + intros Hu.
      now rewrite (main_user_not_added w environ fuel g t1 u t2 Hwait Hg Hadd Hu).
    + intros Hu.
      destruct (main_after_settings w environ fuel g t1 u t2 Hwait Hg Hadd Hu)
        as (t3 & Hcli & Hmain).
      exists t3. split; [exact Hcli|]. rewrite Hmain. repeat split.
      * intros -> ->. reflexivity.
      * intros ->. cbn [negb andb].
        destruct (activate_always w environ (ACTIVATION_CODE environ)
                    (ELog "Attempting to configure Nessus with provided activation code." []
                       :: t3)) as (a & t4 & -> & _).
        reflexivity.
      * intros -> -> configured t4 ->. cbn [negb andb].
        destruct (truthy configured); reflexivity.
Qed.

(** A linking key, credentials, no retry, and a controller that refuses the
    link: exit status 3. *)
Lemma main_exit_status_witness :
  exit_status
    (fst (main (flaky_controller 1) (<["LINKING_KEY" := "key"]> credentials)
            0 [])) = Some 3.
Proof.
  set (w := flaky_controller 1).
  set (environ := <["LINKING_KEY" := "key"]> credentials).
  assert (Hwait : wait_for_global_db w environ [waiting_line] =
                  (Ret (VBool true),
                   snd (wait_for_global_db w environ [waiting_line])))
    by (vm_compute; reflexivity).
  destruct (main_exit_status w environ 0 _ _ Hwait) as [_ Hready].
  assert (Hadd :
    add_user w environ
      (starting_line :: snd (wait_for_global_db w environ [waiting_line])) =
    (Ret (VBool true),
     snd (add_user w environ
            (starting_line
               :: snd (wait_for_global_db w environ [waiting_line])))))
    by (vm_compute; reflexivity).
  destruct (Hready eq_refl _ _ Hadd) as [_ Hadded].
  destruct (Hadded eq_refl) as (t3 & Hcli & _ & _ & Hlink).
  assert (Ht3 : t3 = snd (cli_configure w environ
                   (snd (add_user w environ
                      (starting_line
                         :: snd (wait_for_global_db w environ
                                   [waiting_line])))))).
  { now rewrite Hcli. }
  subst t3.
  apply (Hlink eq_refl eq_refl (VBool false)
           (snd (configure_managed_scanner w environ 0
                   (ELog "Attempting to configure as managed scanner" []
                      :: snd (cli_configure w environ
                                (snd (add_user w environ
                                   (starting_line
                                      :: snd (wait_for_global_db w environ
                                                [waiting_line]))))))))).
  vm_compute. reflexivity.
Defined.

(** ** Claims about the credential checks of add_user *)

Lemma getenv_None_set environ name s :
  environ !! name = Some s -> getenv environ name VNone = VStr s.
Proof. intros H. unfold getenv. now rewrite H. Qed.

Lemma getenv_None_unset environ name :
  environ !! name = None -> getenv environ name VNone = VNone.
Proof. intros H. unfold getenv. now rewrite H. Qed.

(** The three guards at the top of [add_user], lines 113-123: when the
    username or the password is missing, no interactive process is spawned. *)
Lemma add_user_guards w environ t :
  is_None (USERNAME environ) || is_None (PASSWORD environ) = true ->
  add_user w environ t =
  if truthy (py_or (ACTIVATION_CODE environ) (LINKING_KEY environ))
     && is_None (USERNAME environ) && is_None (PASSWORD environ) then
    (Ret (VBool false),
     ELog "Activation code or linking key provided but no username and password provided; exiting." []
       :: adding_line :: t)
  else if truthy (py_or (ACTIVATION_CODE environ) (LINKING_KEY environ))
          && negb (is_None (USERNAME environ))
          && is_None (PASSWORD environ) then
    (Ret (VBool false),
     ELog "Activation code or linking key provided and username was provided, but not a password; exiting." []
       :: adding_line :: t)
  else
    (Ret (VBool true),
     ELog "Username and password not provided. Skipping user creation." []
       :: adding_line :: t).
Proof.
  intros Hmissing. unfold add_user. run.
  destruct (truthy (py_or _ _)), (is_None (USERNAME environ)),
    (is_None (PASSWORD environ)); try discriminate Hmissing; reflexivity.
Qed.

(** C4 does not hold as stated: with an activation code and neither a
    username nor a password, [add_user] reports failure. *)
Lemma add_user_activation_code_without_credentials :
  let environ : gmap string string := {["ACTIVATION_CODE" := "AAAA-BBBB"]} in
  environ !! "USERNAME" = None /\
  environ !! "PASSWORD" = None /\
  fst (add_user quiet_world environ []) = Ret (VBool false) /\
  fst (add_user quiet_world environ []) <> Ret (VBool true).
Proof. vm_compute. intuition discriminate. Qed.

(** C4, amended: when username and password are both unset, [add_user]
    spawns no interactive process; it reports success when neither an
    activation code nor a linking key is given, and failure when one is. *)
Theorem add_user_without_credentials w environ t :
  environ !! "USERNAME" = None ->
  environ !! "PASSWORD" = None ->
  spawns (snd (add_user w environ t)) = spawns t /\
  add_user w environ t =
  if truthy (py_or (ACTIVATION_CODE environ) (LINKING_KEY environ)) then
    (Ret (VBool false),
     ELog "Activation code or linking key provided but no username and password provided; exiting." []
       :: adding_line :: t)
  else
    (Ret (VBool true),
     ELog "Username and password not provided. Skipping user creation." []
       :: adding_line :: t).
Proof.
  intros Huser Hpass.
  assert (Hu : USERNAME environ = VNone) by now apply getenv_None_unset.
  assert (Hp : PASSWORD environ = VNone) by now apply getenv_None_unset.
  rewrite add_user_guards by now rewrite Hu.
  rewrite Hu, Hp. cbn [is_None negb andb].
  destruct (truthy (py_or _ _)); split; reflexivity.
Qed.

Lemma add_user_without_credentials_witness :
  spawns (snd (add_user quiet_world ∅ [])) = spawns [] /\
  add_user quiet_world ∅ [] =
  (Ret (VBool true),
   [ELog "Username and password not provided. Skipping user creation." [];
    adding_line]).
Proof.
  exact (add_user_without_credentials quiet_world ∅ [] eq_refl eq_refl).
Defined.

(** C3 does not hold as stated.  With a username, no password and neither an
    activation code nor a linking key, [add_user] reports success and the
    program exits with status 0; with a password, no username and an
    activation code, [add_user] reports success as well. *)
Lemma add_user_one_credential_succeeds :
  (let environ : gmap string string := {["USERNAME" := "admin"]} in
   environ !! "PASSWORD" = None /\
   fst (add_user quiet_world environ []) = Ret (VBool true) /\
   fst (add_user quiet_world environ []) <> Ret (VBool false) /\
   exit_status (fst (main quiet_world environ 0 [])) = Some 0 /\
   exit_status (fst (main quiet_world environ 0 [])) <> Some 3) /\
  (let environ : gmap string string :=
     <["ACTIVATION_CODE" := "AAAA-BBBB"]> {["PASSWORD" := "secret"]} in
   environ !! "USERNAME" = None /\
   fst (add_user quiet_world environ []) = Ret (VBool true) /\
   fst (add_user quiet_world environ []) <> Ret (VBool false)).
Proof. vm_compute. intuition discriminate. Qed.

(** C3, amended: when exactly one of username and password is set,
    [add_user] never spawns the interactive process.  When the username is
    set, the password is not, and an activation code or a linking key is
    given, [add_user] reports failure and the program exits with status 3
    without any process spawned.  When neither an activation code nor a
    linking key is given, [add_user] logs that the user creation is skipped
    and reports success. *)
Theorem add_user_one_credential w environ :
  (is_Some (environ !! "USERNAME") /\ environ !! "PASSWORD" = None) \/
  (environ !! "USERNAME" = None /\ is_Some (environ !! "PASSWORD")) ->
  (forall t, spawns (snd (add_user w environ t)) = spawns t) /\
  (is_Some (environ !! "USERNAME") ->
   truthy (py_or (ACTIVATION_CODE environ) (LINKING_KEY environ)) = true ->
   (forall t,
      add_user w environ t =
      (Ret (VBool false),
       ELog "Activation code or linking key provided and username was provided, but not a password; exiting." []
         :: adding_line :: t)) /\
   (forall fuel g t1,
      wait_for_global_db w environ [waiting_line] = (Ret g, t1) ->
      exit_status (fst (main w environ fuel [])) = Some 3 /\
      spawns (snd (main w environ fuel [])) = O)) /\
  (truthy (py_or (ACTIVATION_CODE environ) (LINKING_KEY environ)) = false ->
   forall t,
     add_user w environ t =
     (Ret (VBool true),
      ELog "Username and password not provided. Skipping user creation." []
        :: adding_line :: t)).
Proof.
  intros Hone.
  assert (Hmissing :
    is_None (USERNAME environ) || is_None (PASSWORD environ) = true).
  { destruct Hone as [[_ Hp]|[Hu _]].
    - unfold PASSWORD. rewrite (getenv_None_unset _ _ Hp). apply orb_true_r.
    - unfold USERNAME. now rewrite (getenv_None_unset _ _ Hu). }
  split; [|split].
  - intros t. rewrite add_user_guards by assumption.
    destruct (_ && _); [reflexivity|]. destruct (_ && _); reflexivity.
  - intros [u Hu] Hcode.
    assert (Hp : environ !! "PASSWORD" = None).
    { destruct Hone as [[_ Hp]|[Hu' _]]; [exact Hp | congruence]. }
    assert (Hfail : forall t,
      add_user w environ t =
      (Ret (VBool false),
       ELog "Activation code or linking key provided and username was provided, but not a password; exiting." []
         :: adding_line :: t)).
    { intros t. rewrite add_user_guards by assumption. rewrite Hcode.
      unfold USERNAME, PASSWORD.
      rewrite (getenv_None_set _ _ _ Hu), (getenv_None_unset _ _ Hp).
      reflexivity. }
    split; [exact Hfail|].
    intros fuel g t1 Hwait.
    pose proof (wait_for_global_db_spawns w environ [waiting_line]) as Hsp.
    rewrite Hwait in Hsp. cbn in Hsp.
    destruct (truthy g) eqn:Hg.
    + rewrite (main_user_not_added w environ fuel g t1 _ _ Hwait Hg
                 (Hfail _) eq_refl).
      split; [reflexivity|]. cbn. exact Hsp.
    + rewrite (main_not_ready w environ fuel g t1 Hwait Hg).
      split; [reflexivity|]. cbn. exact Hsp.
  - intros Hnone t. rewrite add_user_guards by assumption.
    rewrite Hnone. reflexivity.
Qed.

(** An activation code and a username without a password: failure, exit
    status 3, nothing spawned. *)
Lemma add_user_one_credential_witness :
  add_user quiet_world
    (<["ACTIVATION_CODE" := "AAAA-BBBB"]> {["USERNAME" := "admin"]}) [] =
  (Ret (VBool false),
   [ELog "Activation code or linking key provided and username was provided, but not a password; exiting." [];
    adding_line]) /\
  exit_status
    (fst (main quiet_world
            (<["ACTIVATION_CODE" := "AAAA-BBBB"]> {["USERNAME" := "admin"]})
            0 [])) = Some 3.
Proof.
  set (environ := <["ACTIVATION_CODE" := "AAAA-BBBB"]> {["USERNAME" := "admin"]}
                  : gmap string string).
  assert (Hone :
    (is_Some (environ !! "USERNAME") /\ environ !! "PASSWORD" = None) \/
    (environ !! "USERNAME" = None /\ is_Some (environ !! "PASSWORD"))).
  { left. split; [exists "admin"|]; reflexivity. }
  destruct (add_user_one_credential quiet_world environ Hone)
    as (_ & Hfatal & _).
  destruct Hfatal as [Hadd Hmain];
    [exists "admin"; reflexivity | reflexivity |].
  split; [apply Hadd|].
  apply (Hmain 0%nat (VBool true)
           (snd (wait_for_global_db quiet_world environ [waiting_line]))).
  vm_compute. reflexivity.
Defined.

(** ** The dialogue of add_user *)

Lemma pyval_eqb_refl a : pyval_eqb a a = true.
Proof.
  destruct a as [|[]| | |]; cbn;
    auto using Z.eqb_refl, String.eqb_refl.
Qed.

(** The checker does refuse a line sent before any prompt was observed. *)
Example synchronised_unsolicited :
  synchronised (responses credentials)
    [ESendline (VStr "admin"); ESpawn "/opt/nessus/sbin/nessuscli adduser"]
  = false.
Proof. reflexivity. Qed.

(** It refuses as well a line that is not the answer to the prompt that
    was observed. *)
Example synchronised_wrong_answer :
  synchronised (responses credentials)
    [ESendline (VStr "secret");
     EExpect [prompt_login; prompt_license] (Matched 0)]
  = false.
Proof. vm_compute. reflexivity. Qed.

Lemma run_expect {B} w patterns (k : nat -> M B) t :
  bind (child_expect w patterns) k t =
  match expect_reply w t patterns with
  | Matched i => k i (EExpect patterns (Matched i) :: t)
  | TimedOut => (Raise PexpectTIMEOUT, EExpect patterns TimedOut :: t)
  | EndOfFile => (Raise PexpectEOF, EExpect patterns EndOfFile :: t)
  end.
Proof.
  unfold bind, child_expect. destruct (expect_reply w t patterns); reflexivity.
Qed.

(** The statements up to and including the next [expect]: one goal for the
    first pattern and, when there are two patterns, one for the second, then
    one for each exception. *)
Ltac dialogue_expect Hrange :=
  rewrite ?run_bind_emit; rewrite run_expect;
  let E := fresh "E" in
  let i := fresh "i" in
  destruct (expect_reply _ _ _) as [i| |] eqn:E;
  [ apply Hrange in E; cbn [length] in E;
    destruct i as [|[|i]]; [ | | exfalso; lia ]; try (exfalso; lia);
    clear E; cbn [Nat.eqb]
  | | ].

(** The statements after the last [expect]. *)
Ltac dialogue_end :=
  rewrite ?run_bind_emit; cbn; rewrite ?pyval_eqb_refl; reflexivity.

Lemma add_user_password_synchronised w environ t :
  expect_in_range w ->
  synchronised (responses environ) (snd (add_user_password w environ t)) =
  synchronised (responses environ) t.
Proof.
  intros Hrange.
  unfold add_user_password, responses, custom_print, child_sendline, child_kill.
  generalize (USERNAME environ) (PASSWORD environ). intros u p.
  dialogue_expect Hrange; [| |dialogue_end..].
  - do 5 (dialogue_expect Hrange; [|dialogue_end..]).
    dialogue_end.
  - dialogue_end.
Qed.

(** C8: in every run of [add_user], however it ends, each line sent to the
    spawned process comes right after an [expect] that matched one of its
    patterns, and is the answer to the prompt that matched there.  ([expect]
    returns the index of one of the patterns it was given, as [pexpect]
    promises.) *)
Theorem add_user_synchronised w environ t :
  expect_in_range w ->
  synchronised (responses environ) (snd (add_user w environ t)) =
  synchronised (responses environ) t.
Proof.
  intros Hrange.
  destruct (is_None (USERNAME environ) || is_None (PASSWORD environ)) eqn:Hmiss.
  - rewrite add_user_guards by assumption.
    destruct (_ && _); [reflexivity|]. destruct (_ && _); reflexivity.
  - apply orb_false_elim in Hmiss as [Hu Hp].
    unfold add_user, custom_print, child_sendline, pexpect_spawn.
    rewrite run_bind_emit, Hu, Hp.
    rewrite !andb_false_r. cbn [orb].
    dialogue_expect Hrange; [| |dialogue_end..].
    + rewrite run_bind_emit.
      rewrite add_user_password_synchronised by assumption.
      unfold responses. cbn. now rewrite pyval_eqb_refl.
    + dialogue_end.
Qed.

Lemma quiet_world_expect_in_range : expect_in_range quiet_world.
Proof.
  intros t [|p patterns] i; cbn; [discriminate|].
  intros [= <-]. lia.
Qed.

(** A full dialogue with a child that prints every awaited prompt. *)
Lemma add_user_synchronised_witness :
  synchronised (responses credentials)
    (snd (add_user quiet_world credentials [])) = true /\
  sleeps (snd (add_user quiet_world credentials [])) = [] /\
  spawns (snd (add_user quiet_world credentials [])) = 1%nat.
Proof.
  split; [|vm_compute; split; reflexivity].
  rewrite (add_user_synchronised quiet_world credentials []
             quiet_world_expect_in_range).
  reflexivity.
Defined.

(** * Further properties of the script *)

(** ** Footprints of computations *)

Section Footprints.

Context {A : Type} (allowed : event -> bool).

Lemma emits_ret (a : A) : emits_only allowed (ret a).
Proof. intros t. now exists []. Qed.

Lemma emits_raise (e : exn) : emits_only allowed (@raise A e).
Proof. intros t. now exists []. Qed.

Lemma emits_if (b : bool) (m1 m2 : M A) :
  emits_only allowed m1 -> emits_only allowed m2 ->
  emits_only allowed (if b then m1 else m2).
Proof. now destruct b. Qed.

Lemma emits_bind {B} (m : M B) (k : B -> M A) :
  emits_only allowed m -> (forall b, emits_only allowed (k b)) ->
  emits_only allowed (bind m k).
Proof.
  intros Hm Hk t. unfold bind.
  destruct (Hm t) as (added1 & Ht1 & Hall1).
  destruct (m t) as [[b|e] t1]; cbn [snd] in *; subst t1.
  - destruct (Hk b (added1 ++ t)%list) as (added2 & Ht2 & Hall2).
    exists (added2 ++ added1)%list. split.
    + now rewrite Ht2, app_assoc.
    + rewrite forallb_app. now rewrite Hall1, Hall2.
  - now exists added1.
Qed.

Lemma emits_try_except (m : M A) (handler : exn -> M A) :
  emits_only allowed m -> (forall e, emits_only allowed (handler e)) ->
  emits_only allowed (try_except_CalledProcessError m handler).
Proof.
  intros Hm Hh t. unfold try_except_CalledProcessError.
  destruct (Hm t) as (added1 & Ht1 & Hall1).
  destruct (m t) as [[a|e] t1]; cbn [snd] in *; subst t1;
    [now exists added1|].
  destruct e; try (now exists added1).
  destruct (Hh (CalledProcessError code argv) (added1 ++ t)%list)
    as (added2 & Ht2 & Hall2).
  exists (added2 ++ added1)%list. split.
  - now rewrite Ht2, app_assoc.
  - rewrite forallb_app. now rewrite Hall1, Hall2.
Qed.

End Footprints.

Lemma emits_weaken {A} (allowed allowed' : event -> bool) (m : M A) :
  (forall e, allowed e = true -> allowed' e = true) ->
  emits_only allowed m -> emits_only allowed' m.
Proof.
  intros Hsub Hm t. destruct (Hm t) as (added & Ht & Hall).
  exists added. split; [exact Ht|].
  rewrite forallb_forall in *. auto.
Qed.

Lemma emits_emit allowed e : allowed e = true -> emits_only allowed (emit e).
Proof. intros He t. exists [e]. cbn. now rewrite He. Qed.

Lemma emits_custom_print allowed fmt args :
  allowed (ELog fmt args) = true ->
  emits_only allowed (custom_print fmt args).
Proof. apply emits_emit. Qed.

Lemma emits_subprocess_call allowed w argv :
  (forall status, allowed (ECall argv status) = true) ->
  emits_only allowed (subprocess_call w argv).
Proof.
  intros Hal t. exists [ECall argv (fst (run_command w t argv))].
  cbn. now rewrite Hal.
Qed.

Lemma emits_subprocess_check_output allowed w argv :
  (forall status output, allowed (ECheckOutput argv status output) = true) ->
  emits_only allowed (subprocess_check_output w argv).
Proof.
  intros Hal t. unfold subprocess_check_output.
  destruct (run_command w t argv) as [status output].
  exists [ECheckOutput argv status output]. cbn. now rewrite Hal.
Qed.

Lemma emits_child_expect allowed w patterns :
  (forall outcome, allowed (EExpect patterns outcome) = true) ->
  emits_only allowed (child_expect w patterns).
Proof.
  intros Hal t. exists [EExpect patterns (expect_reply w t patterns)].
  cbn. now rewrite Hal.
Qed.

Lemma emits_os_path_exists allowed w path :
  (forall found, allowed (EExists path found) = true) ->
  emits_only allowed (os_path_exists w path).
Proof.
  intros Hal t. exists [EExists path (path_exists w t path)].
  cbn. now rewrite Hal.
Qed.

Lemma emits_os_path_getsize allowed w path :
  (forall size, allowed (EGetsize path size) = true) ->
  emits_only allowed (os_path_getsize w path).
Proof.
  intros Hal t. exists [EGetsize path (path_getsize w t path)].
  cbn. now rewrite Hal.
Qed.

Lemma emits_time_sleep allowed w seconds :
  allowed (ESleep seconds) = true ->
  emits_only allowed (time_sleep w seconds).
Proof.
  intros Hal. unfold time_sleep.
  apply emits_if; [apply emits_raise | now apply emits_emit].
Qed.

Lemma emits_py_int allowed w v : emits_only allowed (py_int w v).
Proof.
  destruct v as [|[]| |s|s]; cbn;
    try apply emits_ret; try apply emits_raise;
    destruct (int_of_str w s); first [apply emits_ret | apply emits_raise].
Qed.

Lemma emits_load_name allowed w environ locals name :
  emits_only allowed (load_name w environ locals name).
Proof.
  unfold load_name. destruct (assoc name locals); [apply emits_ret|].
  destruct (assoc name _); [apply emits_ret | apply emits_raise].
Qed.

Lemma emits_while {S} allowed fuel (cond : S -> bool) (body : S -> M S) :
  (forall s, emits_only allowed (body s)) ->
  forall s, emits_only allowed (while fuel cond body s).
Proof.
  intros Hbody. induction fuel as [|fuel IH]; intros s; cbn [while].
  - destruct (cond s); apply emits_ret.
  - destruct (cond s); [|apply emits_ret].
    apply emits_bind; [apply Hbody | exact IH].
Qed.

(** One rule of the footprint calculus, side conditions by computation. *)
Ltac emits_step :=
  first
    [ apply emits_ret
    | apply emits_raise
    | apply emits_py_int
    | apply emits_load_name
    | apply emits_custom_print; reflexivity
    | apply emits_emit; reflexivity
    | apply emits_subprocess_call; intros; reflexivity
    | apply emits_subprocess_check_output; intros; reflexivity
    | apply emits_child_expect; intros; reflexivity
    | apply emits_os_path_exists; intros; reflexivity
    | apply emits_os_path_getsize; intros; reflexivity
    | apply emits_time_sleep; reflexivity
    | apply emits_if
    | apply emits_bind; [ | intros ? ]
    | apply emits_try_except; [ | intros ? ] ].

Ltac emits := repeat emits_step.

(** Reading a log that was only extended. *)
Lemma commands_run_frame added t :
  forallb (fun e => negb (is_command e)) added = true ->
  commands_run (added ++ t)%list = commands_run t.
Proof.
  induction added as [|e added IH]; [reflexivity|]. cbn [forallb app].
  intros [He Hall]%andb_prop. rewrite <- (IH Hall).
  destruct e; try reflexivity; discriminate He.
Qed.

Lemma sleeps_frame added t :
  forallb (fun e => negb (is_sleep e)) added = true ->
  sleeps (added ++ t)%list = sleeps t.
Proof.
  induction added as [|e added IH]; [reflexivity|]. cbn [forallb app].
  intros [He Hall]%andb_prop. rewrite <- (IH Hall).
  destruct e; try reflexivity; discriminate.
Qed.

Lemma spawns_frame added t :
  forallb (fun e => negb (is_dialogue e)) added = true ->
  spawns (added ++ t)%list = spawns t.
Proof.
  induction added as [|e added IH]; [reflexivity|]. cbn [forallb app].
  intros [He Hall]%andb_prop. rewrite <- (IH Hall).
  destruct e; try reflexivity; discriminate.
Qed.

Lemma lines_sent_frame added t :
  forallb (fun e => negb (is_dialogue e)) added = true ->
  lines_sent (added ++ t)%list = lines_sent t.
Proof.
  induction added as [|e added IH]; [reflexivity|]. cbn [forallb app].
  intros [He Hall]%andb_prop. rewrite <- (IH Hall).
  destruct e; try reflexivity; discriminate.
Qed.

Lemma polls_frame added t :
  forallb (fun e => negb (is_file e)) added = true ->
  polls (added ++ t)%list = polls t.
Proof.
  induction added as [|e added IH]; [reflexivity|]. cbn [forallb app].
  intros [He Hall]%andb_prop. rewrite <- (IH Hall).
  destruct e; try reflexivity; discriminate.
Qed.

Lemma link_attempts_frame added t :
  forallb (fun e => negb (is_link e)) added = true ->
  link_attempts (added ++ t)%list = link_attempts t.
Proof.
  induction added as [|e added IH]; [reflexivity|]. cbn [forallb app].
  intros [He Hall]%andb_prop. rewrite <- (IH Hall).
  destruct e; try reflexivity;
    cbn in He |- *; destruct (is_link_command argv); cbn in He;
    first [discriminate He | reflexivity].
Qed.

Lemma forallb_weaken {A} (p q : A -> bool) l :
  (forall a, p a = true -> q a = true) ->
  forallb p l = true -> forallb q l = true.
Proof. rewrite !forallb_forall. auto. Qed.

(** *** The footprint of each function *)

Lemma nessus_config_emits w setting value secure :
  emits_only (fun e => is_log e || is_plain_call e)
    (nessus_config w setting value secure).
Proof.
  unfold nessus_config. destruct secure; emits.
Qed.

Lemma cli_configure_emits w environ :
  emits_only (fun e => is_log e || is_plain_call e) (cli_configure w environ).
Proof.
  unfold cli_configure.
  repeat first [ apply nessus_config_emits | emits_step ].
Qed.

Lemma activate_emits w environ code :
  emits_only (fun e => is_log e || is_plain_call e) (activate w environ code).
Proof. unfold activate. emits. Qed.

Lemma add_user_password_emits w environ :
  emits_only (fun e => is_log e || is_dialogue e)
    (add_user_password w environ).
Proof.
  unfold add_user_password, child_sendline, child_kill. emits.
Qed.

Lemma add_user_emits w environ :
  emits_only (fun e => is_log e || is_dialogue e) (add_user w environ).
Proof.
  unfold add_user, child_sendline, pexpect_spawn.
  repeat first [ apply add_user_password_emits | emits_step ].
Qed.

Lemma poll_global_db_emits w n :
  emits_only (fun e => is_log e || is_file e || is_sleep e)
    (poll_global_db w n).
Proof.
  induction n as [|n IH]; cbn [poll_global_db];
    repeat first [ exact IH | emits_step ].
Qed.

Lemma wait_for_global_db_emits w environ :
  emits_only (fun e => is_log e || is_file e || is_sleep e)
    (wait_for_global_db w environ).
Proof.
  unfold wait_for_global_db.
  repeat first [ apply poll_global_db_emits | emits_step ].
Qed.

Lemma managed_link_emits w environ remote_port :
  emits_only (fun e => is_log e || is_link e)
    (managed_link w environ remote_port).
Proof.
  unfold managed_link, managed_link_try.
  apply emits_bind; [emits|].
  intros [v|linked]; [emits|].
  apply emits_if; [|emits].
  apply emits_bind; [destruct (decode_utf8 w linked); emits | intros text].
  emits.
Qed.

Lemma configure_managed_scanner_emits w environ fuel :
  emits_only (fun e => is_log e || is_plain_call e || is_link e || is_sleep e)
    (configure_managed_scanner w environ fuel).
Proof.
  assert (Hlink : forall p,
    emits_only (fun e => is_log e || is_plain_call e || is_link e || is_sleep e)
      (managed_link w environ p)).
  { intros p. eapply emits_weaken; [|apply managed_link_emits].
    intros e He. cbn beta in He |- *.
    destruct (is_log e), (is_link e), (is_plain_call e);
      try reflexivity; discriminate He. }
  unfold configure_managed_scanner.
  apply emits_bind; [emits|intros _].
  apply emits_bind; [emits|intros _].
  apply emits_bind; [apply Hlink|intros linked].
  apply emits_bind.
  - apply emits_if; [|emits]. apply emits_if; [|emits].
    apply emits_while. intros l. unfold retry_link.
    repeat first [ apply Hlink | emits_step ].
  - intros [l|]; emits.
Qed.

(** ** The general settings and the activation *)

Lemma launches_ret {A} (a : A) : launches [] (ret a).
Proof. intros t. now exists a, t. Qed.

Lemma launches_bind {A B} c1 c2 (m : M A) (k : A -> M B) :
  launches c1 m -> (forall a, launches c2 (k a)) ->
  launches (c2 ++ c1)%list (bind m k).
Proof.
  intros Hm Hk t. destruct (Hm t) as (a & t1 & Hrun1 & Hc1).
  destruct (Hk a t1) as (b & t2 & Hrun2 & Hc2).
  exists b, t2. split.
  - now rewrite (run_bind_ret _ _ _ _ _ Hrun1).
  - now rewrite Hc2, Hc1, app_assoc.
Qed.

Lemma launches_if {A} c (b : bool) (m1 m2 : M A) :
  launches c m1 -> launches c m2 -> launches c (if b then m1 else m2).
Proof. now destruct b. Qed.

Lemma launches_custom_print fmt args : launches [] (custom_print fmt args).
Proof. intros t. now exists tt, (ELog fmt args :: t). Qed.

Lemma launches_subprocess_call w argv :
  launches [argv] (subprocess_call w argv).
Proof. intros t. now eexists _, _. Qed.

Lemma launches_eq {A} c c' (m : M A) : launches c m -> c = c' -> launches c' m.
Proof. now intros H <-. Qed.

Ltac launches_step :=
  first
    [ apply launches_ret
    | apply launches_custom_print
    | apply launches_subprocess_call
    | apply launches_if
    | eapply launches_bind; [ | intros ? ] ].

Lemma nessus_config_launches w setting value secure :
  launches [set_argv w setting value secure]
    (nessus_config w setting value secure).
Proof.
  unfold nessus_config, set_argv.
  eapply launches_eq; [repeat launches_step|].
  destruct secure; reflexivity.
Qed.

Lemma cli_configure_launches w environ :
  launches (cli_configure_commands w environ) (cli_configure w environ).
Proof.
  unfold cli_configure, cli_configure_commands.
  destruct (eq_str (AUTO_UPDATE environ) "all"),
    (eq_str (AUTO_UPDATE environ) "plugins"),
    (eq_str (AUTO_UPDATE environ) "no"),
    (truthy (LINKING_KEY environ));
    (eapply launches_eq;
     [ repeat first [ apply nessus_config_launches | launches_step ]
     | reflexivity ]).
Qed.

Lemma cli_configure_run w environ t :
  fst (cli_configure w environ t) = Ret (VBool true) /\
  commands_run (snd (cli_configure w environ t)) =
  (cli_configure_commands w environ ++ commands_run t)%list.
Proof.
  destruct (cli_configure_always w environ t) as (v & t' & Hrun & <-).
  destruct (cli_configure_launches w environ t) as (v' & t'' & Hrun' & Hc).
  rewrite Hrun in Hrun'. injection Hrun' as _ <-.
  rewrite Hrun. now split.
Qed.

(** X1: The general settings are applied on a best-effort basis:
    [cli_configure] launches the same commands in the same order whatever
    their exit statuses, ends with the restart of the service, and returns
    [True]. *)
Theorem cli_configure_best_effort w environ t :
  fst (cli_configure w environ t) = Ret (VBool true) /\
  commands_run (snd (cli_configure w environ t)) =
  (cli_configure_commands w environ ++ commands_run t)%list.
Proof.
  destruct (cli_configure_always w environ t) as (v & t' & Hrun & <-).
  destruct (cli_configure_launches w environ t) as (v' & t'' & Hrun' & Hc).
  rewrite Hrun in Hrun'. injection Hrun' as _ <-.
  rewrite Hrun. now split.
Qed.

(** X2: A value of [AUTO_UPDATE] other than [all], [plugins] and [no] is not
    refused: [cli_configure] then applies no update setting at all, only the
    name, the core-update flag of a managed scanner, and the restart. *)
Theorem cli_configure_unknown_auto_update w environ t :
  eq_str (AUTO_UPDATE environ) "all" = false ->
  eq_str (AUTO_UPDATE environ) "plugins" = false ->
  eq_str (AUTO_UPDATE environ) "no" = false ->
  commands_run (snd (cli_configure w environ t)) =
  (["supervisorctl"; "restart"; "nessusd"]
   :: (if truthy (LINKING_KEY environ)
       then [set_argv w "disable_core_updates" (DISABLE_CORE_UPDATES environ)
               false]
       else [])
   ++ [set_argv w "ms_name" (NAME w environ) true]
   ++ commands_run t)%list.
Proof.
  intros Hall Hplugins Hno.
  rewrite (proj2 (cli_configure_run w environ t)).
  unfold cli_configure_commands. rewrite Hall, Hplugins, Hno.
  cbn [app]. now rewrite <- app_assoc.
Qed.

Lemma cli_configure_unknown_auto_update_witness :
  commands_run (snd (cli_configure quiet_world {["AUTO_UPDATE" := "yes"]} []))
  = [ ["supervisorctl"; "restart"; "nessusd"];
      ["/opt/nessus/sbin/nessuscli"; "fix"; "--set"; "--secure";
       "ms_name=scanner"] ].
Proof.
  rewrite (cli_configure_unknown_auto_update quiet_world
             {["AUTO_UPDATE" := "yes"]} []) by reflexivity.
  vm_compute. reflexivity.
Defined.

(** Case analysis on every condition of the goal, outermost first. *)
Ltac split_conditions :=
  repeat match goal with
         | |- context [if ?c then _ else _] =>
             lazymatch c with
             | negb ?c' => destruct c' eqn:?
             | _ => destruct c eqn:?
             end;
             cbn [negb]; cbv beta iota
         end.

(** X3: [activate] stops the service before it registers the code, and starts
    it again only after a successful registration: the commands are stop,
    register and, when the registration gave status 0, start.  When the
    registration is refused, [activate] returns [False] and the service is
    left stopped. *)
Theorem activate_commands w environ code t :
  commands_run (snd (activate w environ code t)) =
  ((if registration_status w code t =? 0 then [start_argv] else [])
   ++ [register_argv w code; stop_argv] ++ commands_run t)%list /\
  ((registration_status w code t =? 0) = false ->
   fst (activate w environ code t) = Ret (VBool false)).
Proof.
  unfold activate, registration_status, start_argv, register_argv, stop_argv.
  cbv [bind ret emit custom_print subprocess_call fst snd].
  split.
  - split_conditions; reflexivity.
  - intros ->. reflexivity.
Qed.

(** X4: [activate] returns [True] exactly when the registration gave status 0
    and its last effect is a start of the service with status 0. *)
Theorem activate_true_iff w environ code t :
  fst (activate w environ code t) = Ret (VBool true) <->
  registration_status w code t = 0 /\
  exists t', snd (activate w environ code t) = ECall start_argv 0 :: t'.
Proof.
  unfold activate, registration_status, start_argv, register_argv, stop_argv.
  cbv [bind ret emit custom_print subprocess_call fst snd].
  match goal with
  | |- context [if negb (?status =? 0) then _ else _] =>
      destruct (status =? 0) eqn:Hreg; cbn [negb]; cbv beta iota
  end.
  - apply Z.eqb_eq in Hreg.
    split_conditions;
      (split;
       [ intros H;
         first
           [ discriminate H
           | split; [exact Hreg|];
             match goal with
             | E : (_ =? 0) = true |- _ =>
                 apply Z.eqb_eq in E; rewrite E; eexists; reflexivity
             end ]
       | intros [_ [t' H]]; first [discriminate H | reflexivity] ]).
  - apply Z.eqb_neq in Hreg.
    split; [discriminate | intros [H _]; contradiction].
Qed.

Lemma activate_commands_witness :
  commands_run
    (snd (activate registration_refused activation_environ
            (ACTIVATION_CODE activation_environ) []))
  = [ ["/opt/nessus/sbin/nessuscli"; "fetch"; "--register"; "AAAA-BBBB"];
      ["supervisorctl"; "stop"; "nessusd"] ] /\
  fst (activate registration_refused activation_environ
         (ACTIVATION_CODE activation_environ) []) = Ret (VBool false).
Proof.
  destruct (activate_commands registration_refused activation_environ
              (ACTIVATION_CODE activation_environ) []) as [Hcommands Hfalse].
  split.
  - rewrite Hcommands. vm_compute. reflexivity.
  - apply Hfalse. vm_compute. reflexivity.
Defined.

(** ** One link attempt *)

Lemma is_link_command_managed_link_argv w environ remote_port :
  is_link_command (managed_link_argv w environ remote_port) = true.
Proof.
  unfold managed_link_argv, link_argv_with_port, check_output_argv.
  destruct (older_than_2_7 w), (truthy (PROXY environ)); reflexivity.
Qed.

Lemma managed_link_launch w environ remote_port t :
  commands_run (snd (managed_link w environ remote_port t)) =
    managed_link_argv w environ remote_port :: commands_run t /\
  link_attempts (snd (managed_link w environ remote_port t)) =
    S (link_attempts t) /\
  sleeps (snd (managed_link w environ remote_port t)) = sleeps t.
Proof.
  pose proof (is_link_command_managed_link_argv w environ remote_port) as Hlink.
  unfold managed_link_argv in *.
  destruct (older_than_2_7 w) eqn:Hver.
  - rewrite (managed_link_call w environ remote_port t Hver).
    unfold link_argv_with_port in *. cbv zeta.
    set (argv := if truthy (PROXY environ) then _ else _) in *.
    clearbody argv.
    destruct (fst (run_command w t argv) =? 0);
      cbn [snd commands_run link_attempts sleeps]; rewrite Hlink; auto.
  - rewrite (managed_link_check_output w environ remote_port t Hver).
    cbv zeta.
    set (argv := check_output_argv w environ remote_port) in *.
    clearbody argv.
    destruct (fst (run_command w t argv) =? 0);
      [destruct (truthy (VBytes _));
       [destruct (decode_utf8 w _) as [text|];
        [destruct (text_contains _ text)|]|]|];
      cbn [snd commands_run link_attempts sleeps]; rewrite Hlink; auto.
Qed.

(** X5: Every call of [managed_link] launches exactly one command, a link
    command, whatever its outcome: with the caller's port and the four
    proxy arguments when [PROXY] is set, with the caller's port under an
    interpreter older than Python 2.7, and with [MANAGER_PORT] otherwise.
    It never sleeps. *)
Theorem managed_link_one_command w environ remote_port t :
  commands_run (snd (managed_link w environ remote_port t)) =
    managed_link_argv w environ remote_port :: commands_run t /\
  link_attempts (snd (managed_link w environ remote_port t)) =
    S (link_attempts t) /\
  sleeps (snd (managed_link w environ remote_port t)) = sleeps t.
Proof.
  pose proof (is_link_command_managed_link_argv w environ remote_port) as Hlink.
  unfold managed_link_argv in *.
  destruct (older_than_2_7 w) eqn:Hver.
  - rewrite (managed_link_call w environ remote_port t Hver).
    unfold link_argv_with_port in *. cbv zeta.
    set (argv := if truthy (PROXY environ) then _ else _) in *.
    clearbody argv.
    destruct (fst (run_command w t argv) =? 0);
      cbn [snd commands_run link_attempts sleeps]; rewrite Hlink; auto.
  - rewrite (managed_link_check_output w environ remote_port t Hver).
    cbv zeta.
    set (argv := check_output_argv w environ remote_port) in *.
    clearbody argv.
    destruct (fst (run_command w t argv) =? 0);
      [destruct (truthy (VBytes _));
       [destruct (decode_utf8 w _) as [text|];
        [destruct (text_contains _ text)|]|]|];
      cbn [snd commands_run link_attempts sleeps]; rewrite Hlink; auto.
Qed.

(** X6: When a proxy is configured, the link command carries the caller's port
    and the four proxy arguments, on every interpreter; a proxy port, user
    or password that is not set is passed as the text [None]. *)
Theorem managed_link_with_proxy w environ remote_port t host :
  environ !! "PROXY" = Some host ->
  host <> "" ->
  commands_run (snd (managed_link w environ remote_port t)) =
  ([ nessuscli; "managed"; "link";
     "--key=" +:+ py_str w (LINKING_KEY environ);
     "--name=" +:+ py_str w (NAME w environ);
     "--host=" +:+ py_str w (MANAGER_HOST environ);
     "--port=" +:+ py_str w remote_port;
     "--proxy-host=" +:+ host;
     "--proxy-port=" +:+ default "None" (environ !! "PROXY_PORT");
     "--proxy-username=" +:+ default "None" (environ !! "PROXY_USER");
     "--proxy-password=" +:+ default "None" (environ !! "PROXY_PASS") ]
   :: commands_run t).
Proof.
  intros Hproxy Hhost.
  rewrite (proj1 (managed_link_launch w environ remote_port t)).
  f_equal.
  unfold managed_link_argv, link_argv_with_port, check_output_argv.
  assert (Htruthy : truthy (PROXY environ) = true).
  { unfold PROXY, getenv. rewrite Hproxy. cbn.
    apply negb_true_iff. now apply String.eqb_neq. }
  rewrite Htruthy.
  assert (Hlist :
    (link_argv w environ remote_port ++ proxy_argv w environ)%list =
    [ nessuscli; "managed"; "link";
      "--key=" +:+ py_str w (LINKING_KEY environ);
      "--name=" +:+ py_str w (NAME w environ);
      "--host=" +:+ py_str w (MANAGER_HOST environ);
      "--port=" +:+ py_str w remote_port;
      "--proxy-host=" +:+ host;
      "--proxy-port=" +:+ default "None" (environ !! "PROXY_PORT");
      "--proxy-username=" +:+ default "None" (environ !! "PROXY_USER");
      "--proxy-password=" +:+ default "None" (environ !! "PROXY_PASS") ]).
  { unfold link_argv, proxy_argv, PROXY, PROXY_PORT, PROXY_USER, PROXY_PASS,
      getenv.
    rewrite Hproxy.
    destruct (environ !! "PROXY_PORT"), (environ !! "PROXY_USER"),
      (environ !! "PROXY_PASS"); reflexivity. }
  rewrite Hlist. now destruct (older_than_2_7 w).
Qed.

Lemma managed_link_with_proxy_witness :
  commands_run
    (snd (managed_link quiet_world
            (<["PROXY" := "proxy.local"]> {["LINKING_KEY" := "key"]})
            (VStr "8834") []))
  = [ [ "/opt/nessus/sbin/nessuscli"; "managed"; "link"; "--key=key";
        "--name=scanner"; "--host=cloud.tenable.com"; "--port=8834";
        "--proxy-host=proxy.local"; "--proxy-port=None";
        "--proxy-username=None"; "--proxy-password=None" ] ].
Proof.
  rewrite (managed_link_with_proxy quiet_world
             (<["PROXY" := "proxy.local"]> {["LINKING_KEY" := "key"]})
             (VStr "8834") [] "proxy.local");
    [vm_compute; reflexivity | vm_compute; reflexivity | discriminate].
Defined.

(** X7: Under Python 2.7 or later and with an output that decodes,
    [managed_link] reports success exactly when the command exits with
    status 0 and prints something in which [Failed] does not occur; an exit
    with status 0 and no output counts as a failure. *)
Theorem managed_link_truth_value w environ remote_port t text :
  older_than_2_7 w = false ->
  let argv := check_output_argv w environ remote_port in
  decode_utf8 w (snd (run_command w t argv)) = Some text ->
  exists r,
    fst (managed_link w environ remote_port t) = Ret r /\
    truthy r =
    (fst (run_command w t argv) =? 0)
    && negb (String.eqb (snd (run_command w t argv)) "")
    && negb (text_contains (text_of_literal "Failed") text).
Proof.
  intros Hver argv Hdecode. subst argv.
  rewrite (managed_link_check_output w environ remote_port t Hver). cbv zeta.
  rewrite Hdecode. cbn [truthy].
  destruct (fst (run_command w t _) =? 0);
    [|eexists; split; reflexivity].
  destruct (String.eqb (snd (run_command w t _)) "") eqn:Hempty;
    cbn [negb andb]; [eexists; split; reflexivity|].
  destruct (text_contains _ text); eexists; (split; [reflexivity|]);
    cbn [truthy negb]; [reflexivity | now rewrite Hempty].
Qed.

Lemma managed_link_truth_value_witness :
  exists r,
    fst (managed_link (controller_printing "Linked, 0 checks Failed")
           {["LINKING_KEY" := "key"]} (VStr "443") []) = Ret r /\
    truthy r = false.
Proof.
  destruct (managed_link_truth_value
              (controller_printing "Linked, 0 checks Failed")
              {["LINKING_KEY" := "key"]} (VStr "443") []
              (text_of_literal "Linked, 0 checks Failed") eq_refl eq_refl)
    as (r & Hrun & Htruth).
  exists r. split; [exact Hrun|]. rewrite Htruth. vm_compute. reflexivity.
Defined.

(** X8: what the outcome of the link command does to [managed_link] under
    Python 2.7 or later, where [check_output] runs it.  When the command
    exits with a non-zero status, the [CalledProcessError] of [check_output]
    is caught, logged with its text, and turned into [False].  When it exits
    with status 0 and its output is not empty and does not decode as UTF-8,
    the [UnicodeDecodeError] of [linked.decode] leaves [managed_link], with
    nothing logged.  When it exits with status 0 and its output is empty or
    decodes, [managed_link] returns a value. *)
Theorem managed_link_raises w environ remote_port t :
  let argv := check_output_argv w environ remote_port in
  let status := fst (run_command w t argv) in
  let output := snd (run_command w t argv) in
  (older_than_2_7 w = false ->
   status <> 0 ->
   managed_link w environ remote_port t =
   (Ret (VBool false),
    ELog "Scanner failed to link to controller at {0}:{1}. Reason: {2}"
      [LVal (MANAGER_HOST environ); LVal remote_port;
       LExn (CalledProcessError status argv)]
    :: ECheckOutput argv status output :: t)) /\
  (older_than_2_7 w = false ->
   status = 0 ->
   output <> "" ->
   decode_utf8 w output = None ->
   managed_link w environ remote_port t =
   (Raise UnicodeDecodeError, ECheckOutput argv status output :: t)) /\
  (older_than_2_7 w = false ->
   status = 0 ->
   output = "" \/ decode_utf8 w output <> None ->
   exists v t', managed_link w environ remote_port t = (Ret v, t')).
Proof.
  intros argv status output. subst argv status output.
  split; [|split].
  - intros Hver Hstatus.
    rewrite (managed_link_check_output w environ remote_port t Hver).
    cbv zeta. apply Z.eqb_neq in Hstatus. now rewrite Hstatus.
  - intros Hver Hstatus Hempty Hdecode.
    rewrite (managed_link_check_output w environ remote_port t Hver).
    cbv zeta. rewrite Hstatus, Hdecode. cbn [Z.eqb truthy].
    apply String.eqb_neq in Hempty. now rewrite Hempty.
  - intros Hver Hstatus Hgood.
    rewrite (managed_link_check_output w environ remote_port t Hver).
    cbv zeta. rewrite Hstatus. cbn [Z.eqb truthy].
    destruct (String.eqb _ "") eqn:Hempty; cbn [negb].
    + eauto.
    + destruct Hgood as [Hgood|Hgood].
      * apply String.eqb_neq in Hempty. contradiction.
      * destruct (decode_utf8 w _) as [text|]; [|contradiction].
        destruct (text_contains _ text); eauto.
Qed.

(** A refused link (status 1) comes back as [False]; an accepted one (status
    0) whose output is the single byte 255 raises [UnicodeDecodeError]. *)
Lemma managed_link_raises_witness :
  fst (managed_link (flaky_controller 1) {["LINKING_KEY" := "key"]}
         (VStr "443") []) = Ret (VBool false) /\
  fst (managed_link (controller_printing (String (ascii_of_nat 255) ""))
         {["LINKING_KEY" := "key"]} (VStr "443") [])
  = Raise UnicodeDecodeError.
Proof.
  split.
  - rewrite (proj1 (managed_link_raises (flaky_controller 1)
                      {["LINKING_KEY" := "key"]} (VStr "443") []));
      [reflexivity | reflexivity | discriminate].
  - rewrite (proj1 (proj2 (managed_link_raises
                             (controller_printing (String (ascii_of_nat 255) ""))
                             {["LINKING_KEY" := "key"]} (VStr "443") [])));
      [reflexivity | reflexivity | reflexivity | discriminate | reflexivity].
Defined.

(** ** The retry loop in general *)

Lemma link_attempts_configure_prologue w t :
  link_attempts (configure_prologue w t) = link_attempts t /\
  sleeps (configure_prologue w t) = sleeps t.
Proof. split; reflexivity. Qed.

(** With one turn of fuel the retry loop is never cut short. *)
Lemma configure_managed_scanner_ends w environ fuel t :
  fst (configure_managed_scanner w environ (S fuel) t) <> Ret None.
Proof.
  destruct (managed_link w environ (MANAGER_PORT environ)
              (configure_prologue w t)) as [[v|e] t1] eqn:Hlink.
  - destruct (truthy v) eqn:Hv.
    + now rewrite (configure_managed_scanner_linked w environ _ t v t1 Hlink Hv).
    + destruct (truthy (RETRY_ON_FAIL environ)) eqn:Hretry.
      * rewrite (configure_managed_scanner_retry w environ fuel t v t1
                   Hlink Hv Hretry).
        destruct (py_int w _ _) as [[seconds|e] t2];
          [destruct (seconds <? 0)|]; discriminate.
      * now rewrite (configure_managed_scanner_no_retry w environ _ t v t1
                       Hlink Hv Hretry).
  - rewrite configure_managed_scanner_start.
    now rewrite (run_bind_raise _ _ _ _ _ Hlink).
Qed.


(** X9: In every run, [configure_managed_scanner] launches exactly one link
    command and sleeps at most once.  One turn of its loop is enough for it
    to end; when it returns, it returns [True] or [False] (also when
    [managed_link] returned the output of the command), and it has not
    slept: no run returns after a retry. *)
Theorem configure_managed_scanner_single_attempt w environ fuel t :
  let run := configure_managed_scanner w environ (S fuel) t in
  link_attempts (snd run) = S (link_attempts t) /\
  (length (sleeps (snd run)) <= S (length (sleeps t)))%nat /\
  fst run <> Ret None /\
  (forall v, fst run = Ret (Some v) ->
             is_bool v /\ sleeps (snd run) = sleeps t).
Proof.
  intros run. subst run.
  destruct (managed_link_launch w environ (MANAGER_PORT environ)
              (configure_prologue w t)) as (_ & Hattempts & Hsleeps).
  destruct (link_attempts_configure_prologue w t) as [Hp1 Hp2].
  rewrite Hp1 in Hattempts. rewrite Hp2 in Hsleeps.
  destruct (managed_link w environ (MANAGER_PORT environ)
              (configure_prologue w t)) as [[v|e] t1] eqn:Hlink;
    cbn [snd] in Hattempts, Hsleeps.
  - destruct (truthy v) eqn:Hv.
    + rewrite (configure_managed_scanner_linked w environ _ t v t1 Hlink Hv).
      cbn [fst snd]. rewrite Hattempts, Hsleeps.
      split; [reflexivity|]. split; [lia|]. split; [discriminate|].
      intros v' [= <-]. split; [apply is_bool_VBool | reflexivity].
    + destruct (truthy (RETRY_ON_FAIL environ)) eqn:Hretry.
      * rewrite (configure_managed_scanner_retry w environ fuel t v t1
                   Hlink Hv Hretry).
        pose proof (py_int_trace w (RETRY_ON_FAIL_SLEEP environ)
                      (retry_line w environ :: t1)) as Htr.
        destruct (py_int w _ _) as [[seconds|e] t2]; cbn [snd] in Htr;
          subst t2; [destruct (seconds <? 0)|];
          cbn [fst snd link_attempts sleeps retry_line length];
          rewrite Hattempts, Hsleeps;
          (split; [reflexivity|]; split; [cbn; lia|];
           split; [discriminate|]; intros v' H; discriminate H).
      * rewrite (configure_managed_scanner_no_retry w environ _ t v t1
                   Hlink Hv Hretry).
        cbn [fst snd link_attempts sleeps]. rewrite Hattempts, Hsleeps.
        split; [reflexivity|]. split; [lia|]. split; [discriminate|].
        intros v' [= <-]. split; [apply is_bool_VBool | reflexivity].
  - rewrite configure_managed_scanner_start.
    rewrite (run_bind_raise _ _ _ _ _ Hlink). cbn [fst snd].
    rewrite Hattempts, Hsleeps.
    split; [reflexivity|]. split; [lia|]. split; [discriminate|].
    intros v' H. discriminate H.
Qed.

Lemma configure_managed_scanner_single_attempt_witness :
  is_bool (VBool true) /\
  sleeps (snd (configure_managed_scanner (flaky_controller 0)
                 {["LINKING_KEY" := "key"]} 1 [])) = sleeps [].
Proof.
  apply (configure_managed_scanner_single_attempt (flaky_controller 0)
           {["LINKING_KEY" := "key"]} 0 []).
  vm_compute. reflexivity.
Defined.

(** ** The readiness wait in general *)

Lemma poll_global_db_ready_from w k n :
  ready_from_look w k ->
  forall t,
    let d := (k - polls t)%nat in
    exists t',
      poll_global_db w n t = (Ret (d <? n)%nat, t') /\
      polls t' = (polls t + Nat.min (S d) n)%nat /\
      sleeps t' = (repeat 1 (Nat.min d n) ++ sleeps t)%list.
Proof.
  intros Hready. induction n as [|n IH]; intros t d.
  - exists t. rewrite !Nat.min_0_r, Nat.add_0_r. repeat split.
  - cbn [poll_global_db]. unfold bind, os_path_exists, os_path_getsize, ret.
    pose proof (Hready t) as Hlook. unfold marker_ready in Hlook.
    destruct (Nat.leb_spec k (polls t)) as [Hle|Hlt].
    + (* ready at this look *)
      apply andb_prop in Hlook as [Hfound Hsize].
      rewrite Hfound, Hsize.
      assert (Hd : d = O) by (subst d; lia). rewrite Hd.
      eexists. split; [reflexivity|]. cbn. split; [lia | reflexivity].
    + (* not ready: one second of sleep, then the remaining looks *)
      assert (Hd : d = S (k - S (polls t))) by (subst d; lia).
      destruct (path_exists w t global_db); cbn [andb] in Hlook.
      * rewrite Hlook. cbn [time_sleep Z.ltb Z.compare emit].
        destruct (IH (ESleep 1
                        :: EGetsize global_db
                             (path_getsize w (EExists global_db true :: t)
                                global_db)
                        :: EExists global_db true :: t))
          as (t' & Hrun & Hpolls & Hsleeps).
        cbn [polls sleeps] in Hrun, Hpolls, Hsleeps.
        exists t'. rewrite Hrun, Hpolls, Hsleeps, Hd.
        split; [reflexivity|]. split; [cbn [Nat.min]; lia|].
        cbn [Nat.min repeat app]. apply repeat_app_cons.
      * cbn [time_sleep Z.ltb Z.compare emit].
        destruct (IH (ESleep 1 :: EExists global_db false :: t))
          as (t' & Hrun & Hpolls & Hsleeps).
        cbn [polls sleeps] in Hrun, Hpolls, Hsleeps.
        exists t'. rewrite Hrun, Hpolls, Hsleeps, Hd.
        split; [reflexivity|]. split; [cbn [Nat.min]; lia|].
        cbn [Nat.min repeat app]. apply repeat_app_cons.
Qed.

(** X10: When the marker is missing at the first [k] looks and ready from then
    on, [wait_for_global_db] returns [True] exactly when [k] is below the
    configured timeout, after [k] sleeps of one second and [k + 1] looks.  A
    marker that shows up only after the last of the [timeout] looks is
    missed, although the function sleeps one more second after that look. *)
Theorem wait_for_global_db_ready_from w environ k timeout t :
  ready_from_look w k ->
  py_int w (GLOBAL_DB_TIMEOUT environ) = ret timeout ->
  polls t = O ->
  let run := wait_for_global_db w environ t in
  fst run = Ret (VBool (k <? Z.to_nat timeout)%nat) /\
  polls (snd run) = Nat.min (S k) (Z.to_nat timeout) /\
  sleeps (snd run) = (repeat 1 (Nat.min k (Z.to_nat timeout)) ++ sleeps t)%list.
Proof.
  intros Hready Hint Hpolls run. subst run.
  destruct (poll_global_db_ready_from w k (Z.to_nat timeout) Hready t)
    as (t' & Hrun & Hp & Hs).
  rewrite Hpolls, Nat.sub_0_r, Nat.add_0_l in *.
  assert (Hwait :
    wait_for_global_db w environ t =
    if (k <? Z.to_nat timeout)%nat then (Ret (VBool true), t')
    else (Ret (VBool false), timeout_line timeout :: t')).
  { unfold wait_for_global_db. rewrite Hint.
    unfold bind at 1. cbn [ret].
    rewrite (run_bind_ret _ _ _ _ _ Hrun).
    now destruct (k <? Z.to_nat timeout)%nat. }
  rewrite Hwait.
  destruct (k <? Z.to_nat timeout)%nat; cbn [fst snd polls sleeps timeout_line];
    repeat split; assumption.
Qed.

Lemma database_after_ready_from k : ready_from_look (database_after k) k.
Proof.
  intros t. unfold marker_ready. cbn. apply andb_true_r.
Qed.

Lemma wait_for_global_db_ready_from_witness :
  let run :=
    wait_for_global_db (database_after 2) {["GLOBAL_DB_TIMEOUT" := "5"]} [] in
  fst run = Ret (VBool true) /\
  polls (snd run) = 3%nat /\
  sleeps (snd run) = [1; 1].
Proof.
  exact (wait_for_global_db_ready_from (database_after 2)
           {["GLOBAL_DB_TIMEOUT" := "5"]} 2 5 []
           (database_after_ready_from 2) eq_refl eq_refl).
Defined.

(** The boundary: with a timeout of 2 and a marker that is ready from the
    third look on, the wait gives up after two looks and two seconds. *)
Lemma wait_for_global_db_misses_late_marker :
  let run :=
    wait_for_global_db (database_after 2) {["GLOBAL_DB_TIMEOUT" := "2"]} [] in
  fst run = Ret (VBool false) /\
  polls (snd run) = 2%nat /\
  sleeps (snd run) = [1; 1].
Proof. vm_compute. repeat split. Qed.

(** X11: With a timeout of 0 or less, [wait_for_global_db] reports failure
    without looking for the marker at all, on every machine, be the marker
    there or not. *)
Theorem wait_for_global_db_no_look w environ timeout t :
  py_int w (GLOBAL_DB_TIMEOUT environ) = ret timeout ->
  timeout <= 0 ->
  wait_for_global_db w environ t =
  (Ret (VBool false), timeout_line timeout :: t).
Proof.
  intros Hint Hle. unfold wait_for_global_db. rewrite Hint.
  unfold bind at 1. cbn [ret].
  replace (Z.to_nat timeout) with O by lia. reflexivity.
Qed.

Lemma wait_for_global_db_no_look_witness :
  wait_for_global_db quiet_world {["GLOBAL_DB_TIMEOUT" := "0"]} [] =
  (Ret (VBool false), [timeout_line 0]).
Proof.
  apply (wait_for_global_db_no_look quiet_world
           {["GLOBAL_DB_TIMEOUT" := "0"]} 0 []); [reflexivity | lia].
Defined.

(** X12: A [GLOBAL_DB_TIMEOUT] that [int] refuses ends the program at once with
    an uncaught [ValueError]: exit status 1, nothing looked at, launched or
    spawned. *)
Theorem main_bad_timeout w environ fuel s :
  environ !! "GLOBAL_DB_TIMEOUT" = Some s ->
  int_of_str w s = None ->
  main w environ fuel [] = (Raise ValueError, [waiting_line]) /\
  exit_status (fst (main w environ fuel [])) = Some 1.
Proof.
  intros Henv Hint.
  assert (Hmain : main w environ fuel [] = (Raise ValueError, [waiting_line])).
  { unfold main, custom_print. rewrite run_bind_emit.
    apply run_bind_raise.
    unfold wait_for_global_db. apply run_bind_raise.
    unfold GLOBAL_DB_TIMEOUT, getenv. rewrite Henv. cbn. now rewrite Hint. }
  rewrite Hmain. now split.
Qed.

Lemma main_bad_timeout_witness :
  main quiet_world {["GLOBAL_DB_TIMEOUT" := "soon"]} 0 [] =
    (Raise ValueError, [waiting_line]) /\
  exit_status (fst (main quiet_world {["GLOBAL_DB_TIMEOUT" := "soon"]} 0 []))
    = Some 1.
Proof.
  apply (main_bad_timeout quiet_world {["GLOBAL_DB_TIMEOUT" := "soon"]} 0
           "soon"); reflexivity.
Defined.

(** ** The outcomes of the dialogue *)

(** With both credentials set, [add_user] goes past its three guards. *)
Lemma add_user_with_credentials w environ t u p :
  environ !! "USERNAME" = Some u ->
  environ !! "PASSWORD" = Some p ->
  USERNAME environ = VStr u /\
  PASSWORD environ = VStr p /\
  add_user w environ t =
  bind (pexpect_spawn (nessuscli +:+ " adduser"))
    (fun _ =>
       bind (child_expect w [prompt_login; prompt_license])
         (fun a =>
            if (a =? 0)%nat then
              bind (child_sendline (VStr u))
                (fun _ => add_user_password w environ)
            else if (a =? 1)%nat then
              bind (custom_print
                      "Note: User {0} failed to create because of licensing constraints. There is already a user created, continuing.."
                      [LVal (VStr u)])
                (fun _ => ret (VBool true))
            else add_user_password w environ))
    (adding_line :: t).
Proof.
  intros Hu Hp.
  assert (Hu' : USERNAME environ = VStr u) by now apply getenv_None_set.
  assert (Hp' : PASSWORD environ = VStr p) by now apply getenv_None_set.
  split; [exact Hu'|]. split; [exact Hp'|].
  unfold add_user, custom_print. rewrite run_bind_emit.
  rewrite Hu', Hp'. cbn [is_None negb orb].
  now rewrite !andb_false_r.
Qed.

(** X13: When the child answers the first question with the notice that the
    license allows one user only, [add_user] reports success and has sent
    nothing to the child: neither the username nor the password. *)
Theorem add_user_license_limit w environ t u p :
  environ !! "USERNAME" = Some u ->
  environ !! "PASSWORD" = Some p ->
  (forall t', expect_reply w t' [prompt_login; prompt_license] = Matched 1) ->
  add_user w environ t =
  (Ret (VBool true),
   ELog "Note: User {0} failed to create because of licensing constraints. There is already a user created, continuing.."
     [LVal (VStr u)]
   :: EExpect [prompt_login; prompt_license] (Matched 1)
   :: ESpawn "/opt/nessus/sbin/nessuscli adduser"
   :: adding_line :: t) /\
  lines_sent (snd (add_user w environ t)) = lines_sent t.
Proof.
  intros Hu Hp Hreply.
  destruct (add_user_with_credentials w environ t u p Hu Hp)
    as (_ & _ & Hrun).
  rewrite Hrun. unfold pexpect_spawn, custom_print.
  rewrite run_bind_emit, run_expect, Hreply. cbn [Nat.eqb].
  rewrite run_bind_emit. split; reflexivity.
Qed.

Lemma add_user_license_limit_witness :
  let w := child_answering_second [prompt_login; prompt_license] in
  fst (add_user w credentials []) = Ret (VBool true) /\
  lines_sent (snd (add_user w credentials [])) = [].
Proof.
  cbv zeta.
  destruct (add_user_license_limit
              (child_answering_second [prompt_login; prompt_license])
              credentials [] "admin" "secret")
    as [Hrun Hlines]; try (vm_compute; reflexivity).
  rewrite Hrun. split; [reflexivity | exact Hlines].
Defined.

(** X14: When the child asks for the login and then says that the user already
    exists, [add_user] reports success after sending the username only: the
    password is never sent.  It then signals the child with signal 0. *)
Theorem add_user_already_exists w environ t u p :
  environ !! "USERNAME" = Some u ->
  environ !! "PASSWORD" = Some p ->
  (forall t', expect_reply w t' [prompt_login; prompt_license] = Matched 0) ->
  (forall t', expect_reply w t' [prompt_password; prompt_exists] = Matched 1) ->
  add_user w environ t =
  (Ret (VBool true),
   EKill 0
   :: ELog "User {0} exists on the scanner. Skipping." [LVal (VStr u)]
   :: EExpect [prompt_password; prompt_exists] (Matched 1)
   :: ESendline (VStr u)
   :: EExpect [prompt_login; prompt_license] (Matched 0)
   :: ESpawn "/opt/nessus/sbin/nessuscli adduser"
   :: adding_line :: t) /\
  lines_sent (snd (add_user w environ t)) = VStr u :: lines_sent t.
Proof.
  intros Hu Hp Hlogin Hexists.
  destruct (add_user_with_credentials w environ t u p Hu Hp)
    as (Hu' & _ & Hrun).
  rewrite Hrun. unfold pexpect_spawn, child_sendline.
  rewrite run_bind_emit, run_expect, Hlogin. cbn [Nat.eqb].
  rewrite run_bind_emit.
  unfold add_user_password, custom_print, child_kill.
  rewrite run_expect, Hexists. cbn [Nat.eqb].
  rewrite !run_bind_emit, Hu'. split; reflexivity.
Qed.

Lemma add_user_already_exists_witness :
  let w := child_answering_second [prompt_password; prompt_exists] in
  fst (add_user w credentials []) = Ret (VBool true) /\
  lines_sent (snd (add_user w credentials [])) = [VStr "admin"].
Proof.
  cbv zeta.
  destruct (add_user_already_exists
              (child_answering_second [prompt_password; prompt_exists])
              credentials [] "admin" "secret")
    as [Hrun Hlines]; try (vm_compute; reflexivity).
  rewrite Hrun. split; [reflexivity | exact Hlines].
Defined.

(** X15: When the child prints every prompt that is waited for, [add_user]
    reports success after sending, in this order: the username, the
    password twice, [y], an empty line and [y] followed by a line feed.  The
    log line that ends the dialogue carries the password in clear. *)
Theorem add_user_full_dialogue w environ t u p :
  environ !! "USERNAME" = Some u ->
  environ !! "PASSWORD" = Some p ->
  (forall t' prompt others,
     expect_reply w t' (prompt :: others) = Matched 0) ->
  let run := add_user w environ t in
  fst run = Ret (VBool true) /\
  lines_sent (snd run) =
    ([ VStr ("y" +:+ String (ascii_of_nat 10) ""); VStr ""; VStr "y";
       VStr p; VStr p; VStr u ] ++ lines_sent t)%list /\
  spawns (snd run) = S (spawns t) /\
  hd_error (snd run) =
    Some (ELog "Successfully added user: {0}/{1}"
            [LVal (VStr u); LVal (VStr p)]).
Proof.
  intros Hu Hp Hreply run. subst run.
  destruct (add_user_with_credentials w environ t u p Hu Hp)
    as (Hu' & Hp' & Hrun).
  rewrite Hrun. unfold pexpect_spawn, child_sendline.
  rewrite run_bind_emit, run_expect, Hreply. cbn [Nat.eqb].
  rewrite run_bind_emit.
  unfold add_user_password, custom_print, child_sendline, prompt_password,
    prompt_confirm_password, prompt_admin, prompt_rules, prompt_ok,
    prompt_added.
  rewrite Hu', Hp'.
  repeat first [ rewrite run_bind_emit
               | rewrite run_expect, Hreply; cbn [Nat.eqb] ].
  repeat split.
Qed.

Lemma add_user_full_dialogue_witness :
  let run := add_user quiet_world credentials [] in
  fst run = Ret (VBool true) /\
  lines_sent (snd run) =
    [ VStr ("y" +:+ String (ascii_of_nat 10) ""); VStr ""; VStr "y";
      VStr "secret"; VStr "secret"; VStr "admin" ] /\
  spawns (snd run) = 1%nat /\
  hd_error (snd run) =
    Some (ELog "Successfully added user: {0}/{1}"
            [LVal (VStr "admin"); LVal (VStr "secret")]).
Proof.
  apply (add_user_full_dialogue quiet_world credentials [] "admin" "secret");
    try (vm_compute; reflexivity).
Defined.

(** How [add_user_password] can end. *)
Lemma add_user_password_results w environ t :
  expect_in_range w ->
  match fst (add_user_password w environ t) with
  | Ret r => r = VBool true
  | Raise e => e = PexpectTIMEOUT \/ e = PexpectEOF
  end /\
  spawns (snd (add_user_password w environ t)) = spawns t.
Proof.
  intros Hrange.
  unfold add_user_password, custom_print, child_sendline, child_kill.
  dialogue_expect Hrange;
    [ | | rewrite ?run_bind_emit; cbn; auto..].
  - do 5 (dialogue_expect Hrange; [|rewrite ?run_bind_emit; cbn; auto..]).
    rewrite ?run_bind_emit. cbn. auto.
  - rewrite ?run_bind_emit. cbn. auto.
Qed.

(** X16: Whatever the child prints, [add_user] ends in one of three ways: it
    reports success; it reports failure, and then it has spawned nothing
    (one of its two credential checks refused the configuration); or, after
    spawning the child once, it is ended by the time-out or end-of-file
    exception of an [expect].  A dialogue that goes wrong is never reported
    as [False]. *)
Theorem add_user_results w environ t :
  expect_in_range w ->
  let run := add_user w environ t in
  match fst run with
  | Ret r =>
      (r = VBool true /\ (spawns (snd run) <= S (spawns t))%nat) \/
      (r = VBool false /\ spawns (snd run) = spawns t)
  | Raise e =>
      (e = PexpectTIMEOUT \/ e = PexpectEOF) /\
      spawns (snd run) = S (spawns t)
  end.
Proof.
  intros Hrange run. subst run.
  destruct (is_None (USERNAME environ) || is_None (PASSWORD environ)) eqn:Hmiss.
  - rewrite add_user_guards by assumption.
    destruct (_ && _); [cbn; auto|]. destruct (_ && _); cbn; auto.
  - apply orb_false_elim in Hmiss as [Hu Hp].
    unfold add_user, custom_print, child_sendline, pexpect_spawn.
    rewrite run_bind_emit, Hu, Hp.
    rewrite !andb_false_r. cbn [orb].
    dialogue_expect Hrange; [| |cbn; auto..].
    + rewrite run_bind_emit.
      destruct (add_user_password_results w environ
                  (ESendline (USERNAME environ)
                   :: EExpect [prompt_login; prompt_license] (Matched 0)
                   :: ESpawn (nessuscli +:+ " adduser")
                   :: ELog "Adding user to scanner." [] :: t) Hrange)
        as [Hresult Hspawns].
      rewrite Hspawns. cbn [spawns].
      destruct (fst (add_user_password w environ _)) as [r|e].
      * left. split; [exact Hresult | lia].
      * split; [exact Hresult | reflexivity].
    + rewrite run_bind_emit. cbn. auto.
Qed.

Lemma add_user_results_witness :
  fst (add_user silent_child credentials []) = Raise PexpectTIMEOUT /\
  ((PexpectTIMEOUT = PexpectTIMEOUT \/ PexpectTIMEOUT = PexpectEOF) /\
   spawns (snd (add_user silent_child credentials [])) = 1%nat).
Proof.
  assert (Hrange : expect_in_range silent_child).
  { intros t patterns i H. discriminate H. }
  pose proof (add_user_results silent_child credentials [] Hrange) as H.
  cbv zeta in H.
  assert (Hrun : fst (add_user silent_child credentials [])
                 = Raise PexpectTIMEOUT) by (vm_compute; reflexivity).
  rewrite Hrun in H. split; [exact Hrun | exact H].
Defined.

(** X17: [add_user] only talks to the child it spawns and to the log: it
    launches no command, never sleeps and never looks for the marker, and
    it leaves the earlier log in place. *)
Theorem add_user_footprint w environ t :
  let t' := snd (add_user w environ t) in
  (exists added, t' = (added ++ t)%list) /\
  commands_run t' = commands_run t /\
  sleeps t' = sleeps t /\
  polls t' = polls t.
Proof.
  intros t'. subst t'.
  destruct (add_user_emits w environ t) as (added & -> & Hall).
  split; [now exists added|].
  split; [|split].
  - apply commands_run_frame. revert Hall. apply forallb_weaken.
    intros [] H; try reflexivity; discriminate H.
  - apply sleeps_frame. revert Hall. apply forallb_weaken.
    intros [] H; try reflexivity; discriminate H.
  - apply polls_frame. revert Hall. apply forallb_weaken.
    intros [] H; try reflexivity; discriminate H.
Qed.

(** ** The exit status in general *)

Section NeverExits.

Context {A : Type}.

Lemma never_exits_ret (a : A) : never_exits (ret a).
Proof. intros t e t' H. discriminate H. Qed.

Lemma never_exits_raise (e : exn) :
  is_exit e = false -> never_exits (@raise A e).
Proof. intros He t e' t' [= <- _]. exact He. Qed.

Lemma never_exits_if (b : bool) (m1 m2 : M A) :
  never_exits m1 -> never_exits m2 -> never_exits (if b then m1 else m2).
Proof. now destruct b. Qed.

Lemma never_exits_bind {B} (m : M B) (k : B -> M A) :
  never_exits m -> (forall b, never_exits (k b)) -> never_exits (bind m k).
Proof.
  intros Hm Hk t e t' Hrun. unfold bind in Hrun.
  destruct (m t) as [[b|e1] t1] eqn:Hmt.
  - exact (Hk b t1 e t' Hrun).
  - injection Hrun as <- _. exact (Hm t e1 t1 Hmt).
Qed.

Lemma never_exits_try_except (m : M A) (handler : exn -> M A) :
  never_exits m -> (forall e, never_exits (handler e)) ->
  never_exits (try_except_CalledProcessError m handler).
Proof.
  intros Hm Hh t e t' Hrun. unfold try_except_CalledProcessError in Hrun.
  destruct (m t) as [[a|e1] t1] eqn:Hmt; [discriminate Hrun|].
  destruct e1; try (injection Hrun as <- _; exact (Hm t _ t1 Hmt)).
  exact (Hh _ t1 e t' Hrun).
Qed.

End NeverExits.

Lemma never_exits_emit e : never_exits (emit e).
Proof. intros t e' t' H. discriminate H. Qed.

Lemma never_exits_custom_print fmt args : never_exits (custom_print fmt args).
Proof. apply never_exits_emit. Qed.

Lemma never_exits_subprocess_call w argv : never_exits (subprocess_call w argv).
Proof. intros t e t' H. discriminate H. Qed.

Lemma never_exits_subprocess_check_output w argv :
  never_exits (subprocess_check_output w argv).
Proof.
  intros t e t' H. unfold subprocess_check_output in H.
  destruct (run_command w t argv) as [status output].
  destruct (status =? 0); [discriminate H|]. now injection H as <- _.
Qed.

Lemma never_exits_child_expect w patterns :
  never_exits (child_expect w patterns).
Proof.
  intros t e t' H. unfold child_expect in H.
  destruct (expect_reply w t patterns);
    [discriminate H | now injection H as <- _ ..].
Qed.

Lemma never_exits_os_path_exists w path : never_exits (os_path_exists w path).
Proof. intros t e t' H. discriminate H. Qed.

Lemma never_exits_os_path_getsize w path :
  never_exits (os_path_getsize w path).
Proof. intros t e t' H. discriminate H. Qed.

Lemma never_exits_time_sleep w seconds : never_exits (time_sleep w seconds).
Proof.
  unfold time_sleep. apply never_exits_if; [|apply never_exits_emit].
  apply never_exits_raise. unfold negative_sleep.
  now destruct (fst (version_info w) <? 3).
Qed.

Lemma never_exits_py_int w v : never_exits (py_int w v).
Proof.
  destruct v as [|[]| |s|s]; cbn;
    try apply never_exits_ret; try (now apply never_exits_raise);
    destruct (int_of_str w s);
    first [apply never_exits_ret | now apply never_exits_raise].
Qed.

Lemma never_exits_load_name w environ locals name :
  never_exits (load_name w environ locals name).
Proof.
  unfold load_name. destruct (assoc name locals); [apply never_exits_ret|].
  destruct (assoc name _);
    [apply never_exits_ret | now apply never_exits_raise].
Qed.

Lemma never_exits_while {S} fuel (cond : S -> bool) (body : S -> M S) :
  (forall s, never_exits (body s)) ->
  forall s, never_exits (while fuel cond body s).
Proof.
  intros Hbody. induction fuel as [|fuel IH]; intros s; cbn [while].
  - destruct (cond s); apply never_exits_ret.
  - destruct (cond s); [|apply never_exits_ret].
    apply never_exits_bind; [apply Hbody | exact IH].
Qed.

Ltac never_exits_step :=
  first
    [ apply never_exits_ret
    | apply never_exits_raise; reflexivity
    | apply never_exits_py_int
    | apply never_exits_load_name
    | apply never_exits_custom_print
    | apply never_exits_emit
    | apply never_exits_subprocess_call
    | apply never_exits_subprocess_check_output
    | apply never_exits_child_expect
    | apply never_exits_os_path_exists
    | apply never_exits_os_path_getsize
    | apply never_exits_time_sleep
    | apply never_exits_if
    | apply never_exits_bind; [ | intros ? ]
    | apply never_exits_try_except; [ | intros ? ] ].

Lemma add_user_never_exits w environ : never_exits (add_user w environ).
Proof.
  unfold add_user, add_user_password, child_sendline, child_kill,
    pexpect_spawn.
  repeat never_exits_step.
Qed.

Lemma poll_global_db_never_exits w n : never_exits (poll_global_db w n).
Proof.
  induction n as [|n IH]; cbn [poll_global_db];
    repeat first [ exact IH | never_exits_step ].
Qed.

Lemma wait_for_global_db_never_exits w environ :
  never_exits (wait_for_global_db w environ).
Proof.
  unfold wait_for_global_db.
  repeat first [ apply poll_global_db_never_exits | never_exits_step ].
Qed.

Lemma managed_link_never_exits w environ remote_port :
  never_exits (managed_link w environ remote_port).
Proof.
  unfold managed_link, managed_link_try.
  apply never_exits_bind; [repeat never_exits_step|].
  intros [v|linked]; [never_exits_step|].
  apply never_exits_if; [|never_exits_step].
  apply never_exits_bind;
    [destruct (decode_utf8 w linked); never_exits_step | intros text].
  repeat never_exits_step.
Qed.

Lemma configure_managed_scanner_never_exits w environ fuel :
  never_exits (configure_managed_scanner w environ fuel).
Proof.
  unfold configure_managed_scanner.
  apply never_exits_bind; [never_exits_step|intros _].
  apply never_exits_bind; [never_exits_step|intros _].
  apply never_exits_bind; [apply managed_link_never_exits|intros linked].
  apply never_exits_bind.
  - apply never_exits_if; [|repeat never_exits_step].
    apply never_exits_if; [|repeat never_exits_step].
    apply never_exits_while. intros l. unfold retry_link.
    repeat first [ apply managed_link_never_exits | never_exits_step ].
  - intros [l|]; repeat never_exits_step.
Qed.

Lemma exit_status_uncaught e :
  is_exit e = false -> exit_status (Raise e) = Some 1.
Proof. destruct e; intros H; try reflexivity; discriminate H. Qed.

(** An exception inside the readiness wait is not caught. *)
Lemma main_wait_raises w environ fuel e t1 :
  wait_for_global_db w environ [waiting_line] = (Raise e, t1) ->
  main w environ fuel [] = (Raise e, t1).
Proof.
  intros Hwait. unfold main, custom_print. rewrite run_bind_emit.
  now apply run_bind_raise.
Qed.

(** X18: The program always ends, and always with exit status 0, 1 or 3: 0 and 3
    through [sys.exit], 1 through an exception that nothing catches.  One
    turn of the retry loop is all that any run needs. *)
Theorem main_exit_status_range w environ fuel :
  let status := exit_status (fst (main w environ (S fuel) [])) in
  status = Some 0 \/ status = Some 1 \/ status = Some 3.
Proof.
  intros status. subst status.
  destruct (wait_for_global_db w environ [waiting_line]) as [[g|e] t1]
    eqn:Hwait.
  2:{ rewrite (main_wait_raises w environ _ e t1 Hwait).
      right. left. apply exit_status_uncaught.
      exact (wait_for_global_db_never_exits w environ _ _ _ Hwait). }
  destruct (truthy g) eqn:Hg.
  2:{ rewrite (main_not_ready w environ _ g t1 Hwait Hg). auto. }
  destruct (add_user w environ (starting_line :: t1)) as [[u|e] t2] eqn:Hadd.
  2:{ rewrite (main_user_raises w environ _ g t1 e t2 Hwait Hg Hadd).
      right. left. apply exit_status_uncaught.
      exact (add_user_never_exits w environ _ _ _ Hadd). }
  destruct (truthy u) eqn:Hu.
  2:{ rewrite (main_user_not_added w environ _ g t1 u t2 Hwait Hg Hadd Hu).
      auto. }
  destruct (main_after_settings w environ (S fuel) g t1 u t2 Hwait Hg Hadd Hu)
    as (t3 & _ & Hmain).
  rewrite Hmain.
  destruct (truthy (ACTIVATION_CODE environ)); cbn [negb andb].
  - destruct (activate_always w environ (ACTIVATION_CODE environ)
                (ELog "Attempting to configure Nessus with provided activation code." []
                   :: t3)) as (a & t4 & -> & _).
    auto.
  - destruct (truthy (LINKING_KEY environ)); cbn [negb]; [|auto].
    pose proof (configure_managed_scanner_ends w environ fuel
                  (ELog "Attempting to configure as managed scanner" [] :: t3))
      as Hsome.
    destruct (configure_managed_scanner w environ (S fuel) _)
      as [[[configured|]|e] t4] eqn:Hconf; cbn [fst] in Hsome.
    + destruct (truthy configured); auto.
    + now contradiction Hsome.
    + right. left. apply exit_status_uncaught.
      exact (configure_managed_scanner_never_exits w environ _ _ _ _ Hconf).
Qed.

(** ** What the program does not do *)

Lemma emits_link_attempts {A} allowed (m : M A) t :
  emits_only allowed m ->
  (forall e, allowed e = true -> is_link e = false) ->
  link_attempts (snd (m t)) = link_attempts t.
Proof.
  intros Hm Hal. destruct (Hm t) as (added & -> & Hall).
  apply link_attempts_frame. revert Hall. apply forallb_weaken.
  intros e He. now rewrite (Hal e He).
Qed.

Lemma plain_call_not_link e : is_plain_call e = true -> is_link e = false.
Proof.
  destruct e; try reflexivity; cbn.
  - now destruct (is_link_command argv).
  - discriminate.
Qed.

Lemma log_or_call_not_link e :
  is_log e || is_plain_call e = true -> is_link e = false.
Proof.
  intros [H|H]%orb_prop; [now destruct e | now apply plain_call_not_link].
Qed.

(** X19: Before the marker is ready the program touches nothing: when the wait
    reports failure, the program exits with status 3 without having
    launched a command, spawned a process or sent a line. *)
Theorem main_idle_until_ready w environ fuel g t1 :
  wait_for_global_db w environ [waiting_line] = (Ret g, t1) ->
  truthy g = false ->
  let run := main w environ fuel [] in
  fst run = Raise (SystemExit 3) /\
  commands_run (snd run) = [] /\
  spawns (snd run) = O /\
  lines_sent (snd run) = [].
Proof.
  intros Hwait Hg run. subst run.
  rewrite (main_not_ready w environ fuel g t1 Hwait Hg). cbn [fst snd].
  destruct (wait_for_global_db_emits w environ [waiting_line])
    as (added & Ht1 & Hall).
  rewrite Hwait in Ht1. cbn [snd] in Ht1. subst t1.
  split; [reflexivity|]. split; [|split].
  - transitivity (commands_run [waiting_line]); [|reflexivity].
    apply commands_run_frame. revert Hall. apply forallb_weaken.
    intros [] H; try reflexivity; discriminate H.
  - transitivity (spawns [waiting_line]); [|reflexivity].
    apply spawns_frame. revert Hall. apply forallb_weaken.
    intros [] H; try reflexivity; discriminate H.
  - transitivity (lines_sent [waiting_line]); [|reflexivity].
    apply lines_sent_frame. revert Hall. apply forallb_weaken.
    intros [] H; try reflexivity; discriminate H.
Qed.

Lemma main_idle_until_ready_witness :
  let run := main no_database {["GLOBAL_DB_TIMEOUT" := "3"]} 0 [] in
  fst run = Raise (SystemExit 3) /\
  commands_run (snd run) = [] /\
  spawns (snd run) = O /\
  lines_sent (snd run) = [].
Proof.
  apply (main_idle_until_ready no_database {["GLOBAL_DB_TIMEOUT" := "3"]} 0
           (VBool false)
           (snd (wait_for_global_db no_database
                   {["GLOBAL_DB_TIMEOUT" := "3"]} [waiting_line])));
    vm_compute; reflexivity.
Defined.

(** X20: The program tries to link the scanner only when it is asked to and not
    asked to activate it: with an activation code, or without a linking
    key, no run launches a link command.  In particular an activation code
    takes precedence over a linking key. *)
Theorem main_links_only_when_asked w environ fuel :
  truthy (ACTIVATION_CODE environ) = true \/
  truthy (LINKING_KEY environ) = false ->
  link_attempts (snd (main w environ fuel [])) = O.
Proof.
  intros Hmode.
  assert (Hwait_links :
    link_attempts (snd (wait_for_global_db w environ [waiting_line])) = O).
  { rewrite (emits_link_attempts _ _ _ (wait_for_global_db_emits w environ));
      [reflexivity|].
    intros [] H; try reflexivity; discriminate H. }
  destruct (wait_for_global_db w environ [waiting_line]) as [[g|e] t1]
    eqn:Hwait; cbn [snd] in Hwait_links.
  2:{ now rewrite (main_wait_raises w environ _ e t1 Hwait). }
  destruct (truthy g) eqn:Hg.
  2:{ now rewrite (main_not_ready w environ _ g t1 Hwait Hg). }
  assert (Hadd_links :
    link_attempts (snd (add_user w environ (starting_line :: t1))) = O).
  { rewrite (emits_link_attempts _ _ _ (add_user_emits w environ));
      [exact Hwait_links|].
    intros [] H; try reflexivity; discriminate H. }
  destruct (add_user w environ (starting_line :: t1)) as [[u|e] t2] eqn:Hadd;
    cbn [snd] in Hadd_links.
  2:{ now rewrite (main_user_raises w environ _ g t1 e t2 Hwait Hg Hadd). }
  destruct (truthy u) eqn:Hu.
  2:{ now rewrite (main_user_not_added w environ _ g t1 u t2 Hwait Hg Hadd Hu). }
  destruct (main_after_settings w environ fuel g t1 u t2 Hwait Hg Hadd Hu)
    as (t3 & Hcli & Hmain).
  assert (Hcli_links : link_attempts t3 = O).
  { pose proof (emits_link_attempts _ _ t2 (cli_configure_emits w environ)
                  log_or_call_not_link) as H.
    rewrite Hcli in H. cbn [snd] in H. now rewrite H. }
  rewrite Hmain.
  destruct (truthy (ACTIVATION_CODE environ)) eqn:Hcode; cbn [negb andb].
  - pose proof (emits_link_attempts _ _
                  (ELog "Attempting to configure Nessus with provided activation code." []
                     :: t3)
                  (activate_emits w environ (ACTIVATION_CODE environ))
                  log_or_call_not_link) as Hact.
    destruct (activate w environ _ _) as [[activated|e] t4];
      cbn [snd link_attempts] in Hact |- *; [|now rewrite Hact].
    destruct (truthy activated); cbn [link_attempts]; now rewrite Hact.
  - destruct Hmode as [Hmode|Hmode]; [discriminate Hmode|].
    rewrite Hmode. cbn [negb snd link_attempts]. exact Hcli_links.
Qed.

Lemma main_links_only_when_asked_witness :
  link_attempts
    (snd (main quiet_world
            (<["LINKING_KEY" := "key"]> activation_environ) 1 [])) = O.
Proof.
  apply (main_links_only_when_asked quiet_world
           (<["LINKING_KEY" := "key"]> activation_environ) 1).
  left. vm_compute. reflexivity.
Defined.

(** ** A delay that cannot be slept *)

(** X21: With retrying on and a first attempt that failed, a retry delay that
    [int] refuses ends [configure_managed_scanner] with [ValueError], after
    the retry was announced in the log and before any sleep or second
    attempt. *)
Theorem configure_managed_scanner_bad_delay w environ fuel t v t1 s :
  managed_link w environ (MANAGER_PORT environ) (configure_prologue w t)
    = (Ret v, t1) ->
  truthy v = false ->
  truthy (RETRY_ON_FAIL environ) = true ->
  environ !! "RETRY_ON_FAIL_SLEEP" = Some s ->
  int_of_str w s = None ->
  configure_managed_scanner w environ (S fuel) t =
    (Raise ValueError, retry_line w environ :: t1) /\
  sleeps (snd (configure_managed_scanner w environ (S fuel) t)) = sleeps t /\
  link_attempts (snd (configure_managed_scanner w environ (S fuel) t))
    = S (link_attempts t).
Proof.
  intros Hlink Hv Hretry Henv Hint.
  assert (Hrun :
    configure_managed_scanner w environ (S fuel) t =
    (Raise ValueError, retry_line w environ :: t1)).
  { rewrite (configure_managed_scanner_retry w environ fuel t v t1
               Hlink Hv Hretry).
    unfold RETRY_ON_FAIL_SLEEP at 1, getenv. rewrite Henv. cbn.
    now rewrite Hint. }
  rewrite Hrun. split; [reflexivity|].
  destruct (managed_link_launch w environ (MANAGER_PORT environ)
              (configure_prologue w t)) as (_ & Hattempts & Hsleeps).
  rewrite Hlink in Hattempts, Hsleeps. cbn [snd] in Hattempts, Hsleeps.
  cbn [snd sleeps link_attempts retry_line].
  rewrite Hattempts, Hsleeps. split; reflexivity.
Qed.

Lemma configure_managed_scanner_bad_delay_witness :
  let environ : gmap string string :=
    <["RETRY_ON_FAIL" := "1"]> {["RETRY_ON_FAIL_SLEEP" := "30s"]} in
  fst (configure_managed_scanner (flaky_controller 1) environ 1 [])
    = Raise ValueError /\
  sleeps (snd (configure_managed_scanner (flaky_controller 1) environ 1 []))
    = [].
Proof.
  cbv zeta.
  set (environ := <["RETRY_ON_FAIL" := "1"]> {["RETRY_ON_FAIL_SLEEP" := "30s"]}
                  : gmap string string).
  set (w := flaky_controller 1).
  assert (Hlink :
    managed_link w environ (MANAGER_PORT environ) (configure_prologue w []) =
    (Ret (VBool false),
     snd (managed_link w environ (MANAGER_PORT environ)
            (configure_prologue w [])))) by (vm_compute; reflexivity).
  destruct (configure_managed_scanner_bad_delay w environ 0 [] _ _ "30s" Hlink
              eq_refl eq_refl) as (Hrun & Hsleeps & _);
    try (vm_compute; reflexivity).
  rewrite Hrun. split; [reflexivity | exact Hsleeps].
Defined.

(** ** Deferring to the wizard *)

(** X22: Without an activation code and without a linking key (unset, or set to
    the empty string), a run that gets past the readiness wait and
    [add_user] ends with exit status 0, and the only commands it has
    launched are those of the general settings. *)
Theorem main_defers_to_wizard w environ fuel g t1 u t2 :
  truthy (ACTIVATION_CODE environ) = false ->
  truthy (LINKING_KEY environ) = false ->
  wait_for_global_db w environ [waiting_line] = (Ret g, t1) ->
  truthy g = true ->
  add_user w environ (starting_line :: t1) = (Ret u, t2) ->
  truthy u = true ->
  let run := main w environ fuel [] in
  fst run = Raise (SystemExit 0) /\
  commands_run (snd run) = cli_configure_commands w environ /\
  hd_error (snd run) =
    Some (ELog "Activation code or Linking key was not provided. Will use the welcome wizard." []).
Proof.
  intros Hcode Hkey Hwait Hg Hadd Hu run. subst run.
  destruct (main_after_settings w environ fuel g t1 u t2 Hwait Hg Hadd Hu)
    as (t3 & Hcli & Hmain).
  rewrite Hmain, Hcode, Hkey. cbn [negb andb fst snd commands_run hd_error].
  split; [reflexivity|]. split; [|reflexivity].
  pose proof (proj2 (cli_configure_run w environ t2)) as Hcommands.
  rewrite Hcli in Hcommands. cbn [snd] in Hcommands. rewrite Hcommands.
  assert (Hnone : commands_run t2 = []).
  { destruct (add_user_emits w environ (starting_line :: t1))
      as (added2 & Ht2 & Hall2).
    destruct (wait_for_global_db_emits w environ [waiting_line])
      as (added1 & Ht1 & Hall1).
    rewrite Hadd in Ht2. rewrite Hwait in Ht1. cbn [snd] in Ht1, Ht2.
    subst t2 t1.
    rewrite commands_run_frame.
    - cbn [commands_run starting_line]. rewrite commands_run_frame.
      + reflexivity.
      + revert Hall1. apply forallb_weaken.
        intros [] H; try reflexivity; discriminate H.
    - revert Hall2. apply forallb_weaken.
      intros [] H; try reflexivity; discriminate H. }
  rewrite Hnone. apply app_nil_r.
Qed.

Lemma main_defers_to_wizard_witness :
  let environ : gmap string string := {["ACTIVATION_CODE" := ""]} in
  let run := main quiet_world environ 0 [] in
  fst run = Raise (SystemExit 0) /\
  commands_run (snd run) = cli_configure_commands quiet_world environ /\
  hd_error (snd run) =
    Some (ELog "Activation code or Linking key was not provided. Will use the welcome wizard." []).
Proof.
  cbv zeta.
  set (environ := {["ACTIVATION_CODE" := ""]} : gmap string string).
  apply (main_defers_to_wizard quiet_world environ 0
           (VBool true)
           (snd (wait_for_global_db quiet_world environ [waiting_line]))
           (VBool true)
           (snd (add_user quiet_world environ
                   (starting_line
                      :: snd (wait_for_global_db quiet_world environ
                                [waiting_line])))));
    vm_compute; reflexivity.
Defined.
